(** * sglang_router_proxy: a shallow embedding of [proxy] and its contract

    The development follows [src/sglang_router_proxy/__main__.py].  The
    handler [proxy] is embedded as a function in a small trace-and-exception
    monad; the Python built-ins and library calls it makes ([str.encode],
    [str.lower], [hashlib.sha256], [int(_, 16)], [%], dict item assignment,
    Starlette's [Headers], httpx's [Headers]) are embedded next to it, and
    the collaborators whose text is not part of the repository (the JSON
    codec, the upstream server) are variables of a section. *)

From Stdlib Require Import ZArith NArith List String Ascii Bool Lia.
From Stdlib Require Import Strings.Byte DecimalString.
Import ListNotations.

Set Warnings "-register-all".

Local Open Scope string_scope.
Local Open Scope list_scope.
Local Open Scope Z_scope.

(* ================================================================== *)
(** ** Python values *)
(* ================================================================== *)

Module Py.

(** A [str] is a sequence of code points.  The model carries the Latin-1
    repertoire, one [ascii] per code point: that is what an ASGI server
    hands over for header names and values (header bytes are decoded as
    Latin-1), and [proxy] never looks inside any other text. *)
Definition str := string.

(** [bytes] objects. *)
Definition bytes := list byte.

Definition byte_of_N (n : N) : byte := byte_of_ascii (ascii_of_N n).
Definition Z_of_byte (b : byte) : Z := Z.of_N (Byte.to_N b).
Definition byte_of_Z (z : Z) : byte := byte_of_N (Z.to_N z).

(** Exceptions that can escape from [proxy]. *)
Inductive exn : Type :=
| JSONDecodeError
| UnicodeDecodeError
| UnicodeEncodeError
| TypeError
| ValueError
| KeyError
| ZeroDivisionError
| HTTPError (what : str).

(** Results of fallible calls: [inl e] is "raises e". *)
Definition result (A : Type) : Type := (exn + A)%type.

(** Truth value testing of [str] and [bytes]: empty is falsy. *)
Definition str_bool (s : str) : bool :=
  match s with EmptyString => false | String _ _ => true end.

Definition bytes_bool (b : bytes) : bool :=
  match b with [] => false | _ :: _ => true end.

(** [str.encode()], that is UTF-8: a code point below 128 is one byte, a
    code point in 128..255 is the two bytes 110000xx 10xxxxxx. *)
Definition encode_char (c : ascii) : bytes :=
  let n := N_of_ascii c in
  if (n <? 128)%N then [byte_of_N n]
  else [byte_of_N (192 + n / 64); byte_of_N (128 + n mod 64)].

Fixpoint encode (s : str) : bytes :=
  match s with
  | EmptyString => []
  | String c s' => (encode_char c ++ encode s')%list
  end.

(** [str.lower()] on the Latin-1 repertoire: A-Z and the letters
    U+00C0..U+00DE except the multiplication sign U+00D7 move up by 32. *)
Definition lower_char (c : ascii) : ascii :=
  let n := N_of_ascii c in
  if ((65 <=? n) && (n <=? 90))%N then ascii_of_N (n + 32)
  else if ((192 <=? n) && (n <=? 222) && negb (n =? 215))%N then ascii_of_N (n + 32)
  else c.

Fixpoint lower (s : str) : str :=
  match s with
  | EmptyString => EmptyString
  | String c s' => String (lower_char c) (lower s')
  end.

(** [sep.join(items)]. *)
Fixpoint join (sep : str) (items : list str) : str :=
  match items with
  | [] => EmptyString
  | [x] => x
  | x :: rest => (x ++ sep ++ join sep rest)%string
  end.

(** A [str] that may leave the Latin-1 repertoire, by its code points: the
    values of response headers, which the client decodes from the bytes it
    received. *)
Definition text := list N.

(** [sep.join(items)] on such strings. *)
Fixpoint join_text (sep : text) (items : list text) : text :=
  match items with
  | [] => []
  | [x] => x
  | x :: rest => x ++ sep ++ join_text sep rest
  end.

(** [s.encode("latin-1")]: a code point above 255 raises. *)
Fixpoint encode_latin1 (s : text) : result bytes :=
  match s with
  | [] => inr []
  | c :: s' =>
      if (c <=? 255)%N then
        match encode_latin1 s' with
        | inr b => inr (byte_of_N c :: b)
        | inl e => inl e
        end
      else inl UnicodeEncodeError
  end.

(** The same for a [str] of the Latin-1 repertoire, which always fits. *)
Definition str_latin1 (s : str) : bytes :=
  map byte_of_ascii (list_ascii_of_string s).

(** [b.decode("ascii")] succeeds on these. *)
Definition is_ascii (b : bytes) : bool :=
  forallb (fun x => (Byte.to_N x <? 128)%N) b.

(** [b.decode("iso-8859-1")] *)
Definition decode_latin1 (b : bytes) : text := map Byte.to_N b.

Definition continuation (n : N) : bool := ((128 <=? n) && (n <=? 191))%N.

(** [b.decode("utf-8")], strict: no overlong form, no surrogate, nothing
    above U+10FFFF; [None] is UnicodeDecodeError. *)
Fixpoint decode_utf8 (b : bytes) : option text :=
  match b with
  | [] => Some []
  | x0 :: r =>
      let x := Byte.to_N x0 in
      if (x <? 128)%N then option_map (cons x) (decode_utf8 r)
      else if ((194 <=? x) && (x <=? 223))%N then
        match r with
        | y0 :: r1 =>
            let y := Byte.to_N y0 in
            if continuation y
            then option_map (cons ((x - 192) * 64 + (y - 128))%N) (decode_utf8 r1)
            else None
        | _ => None
        end
      else if ((224 <=? x) && (x <=? 239))%N then
        match r with
        | y0 :: z0 :: r2 =>
            let y := Byte.to_N y0 in
            let z := Byte.to_N z0 in
            if (continuation y && continuation z
                && (if x =? 224 then 160 <=? y else true)
                && (if x =? 237 then y <=? 159 else true))%N
            then option_map
                   (cons (((x - 224) * 64 + (y - 128)) * 64 + (z - 128))%N)
                   (decode_utf8 r2)
            else None
        | _ => None
        end
      else if ((240 <=? x) && (x <=? 244))%N then
        match r with
        | y0 :: z0 :: w0 :: r3 =>
            let y := Byte.to_N y0 in
            let z := Byte.to_N z0 in
            let w := Byte.to_N w0 in
            if (continuation y && continuation z && continuation w
                && (if x =? 240 then 144 <=? y else true)
                && (if x =? 244 then y <=? 143 else true))%N
            then option_map
                   (cons ((((x - 240) * 64 + (y - 128)) * 64 + (z - 128)) * 64
                          + (w - 128))%N)
                   (decode_utf8 r3)
            else None
        | _ => None
        end
      else None
  end.

(** [str(n)] for an [int]. *)
Definition str_of_int (z : Z) : str := NilZero.string_of_int (Z.to_int z).

(** [a % b] on [int]: the result has the sign of the divisor, and a zero
    divisor raises. *)
Definition mod_ (a b : Z) : result Z :=
  if b =? 0 then inl ZeroDivisionError else inr (a mod b).

(** *** Dictionaries

    A [dict] keeps its keys in insertion order, so it is an association
    list; [d[k] = v] overwrites in place when [k] is already a key and
    appends otherwise. *)
Section Dict.
Variable V : Type.

Definition dict := list (str * V).

Fixpoint getitem (d : dict) (k : str) : option V :=
  match d with
  | [] => None
  | (k', v') :: rest => if String.eqb k' k then Some v' else getitem rest k
  end.

Fixpoint setitem (d : dict) (k : str) (v : V) : dict :=
  match d with
  | [] => [(k, v)]
  | (k', v') :: rest =>
      if String.eqb k' k then (k', v) :: rest
      else (k', v') :: setitem rest k v
  end.

Definition keys (d : dict) : list str := map fst d.

(** [d.update(items)]: each item is assigned in turn. *)
Definition update (d : dict) (items : list (str * V)) : dict :=
  fold_left (fun d kv => setitem d (fst kv) (snd kv)) items d.

(** [{k: v for k, v in items}] and [dict(items)]: later items overwrite
    earlier ones with the same key. *)
Definition dict_of_items (items : list (str * V)) : dict := update [] items.
End Dict.

Arguments getitem {V} d k.
Arguments setitem {V} d k v.
Arguments keys {V} d.
Arguments update {V} d items.
Arguments dict_of_items {V} items.

(** *** What [json.loads] can return *)
Inductive value : Type :=
| PyNone
| PyBool (b : bool)
| PyInt (z : Z)
| PyFloat (bits : Z)            (* an IEEE-754 binary64, by its bit pattern *)
| PyStr (s : str)
| PyList (items : list value)
| PyDict (d : list (str * value)).

(** [data[k] = v] for [data] of any of these types: only a [dict] supports
    item assignment with a [str] key. *)
Definition value_setitem (data : value) (k : str) (v : value) : result value :=
  match data with
  | PyDict d => inr (PyDict (setitem d k v))
  | _ => inl TypeError
  end.

End Py.

(* ================================================================== *)
(** ** hashlib.sha256 (FIPS 180-4) and hexadecimal text *)
(* ================================================================== *)

Module Hashlib.
Import Py.

(** 32-bit words are integers with the wrap-around written out. *)
Definition w32 (x : Z) : Z := Z.land x 0xFFFFFFFF.
Definition add32 (x y : Z) : Z := w32 (x + y).
Definition rotr (n x : Z) : Z := Z.lor (Z.shiftr x n) (w32 (Z.shiftl x (32 - n))).
Definition not32 (x : Z) : Z := Z.lxor x 0xFFFFFFFF.

Definition Ch (x y z : Z) : Z := Z.lxor (Z.land x y) (Z.land (not32 x) z).
Definition Maj (x y z : Z) : Z :=
  Z.lxor (Z.lxor (Z.land x y) (Z.land x z)) (Z.land y z).
Definition Sigma0 (x : Z) : Z := Z.lxor (Z.lxor (rotr 2 x) (rotr 13 x)) (rotr 22 x).
Definition Sigma1 (x : Z) : Z := Z.lxor (Z.lxor (rotr 6 x) (rotr 11 x)) (rotr 25 x).
Definition sigma0 (x : Z) : Z := Z.lxor (Z.lxor (rotr 7 x) (rotr 18 x)) (Z.shiftr x 3).
Definition sigma1 (x : Z) : Z := Z.lxor (Z.lxor (rotr 17 x) (rotr 19 x)) (Z.shiftr x 10).

(** The round constants: the first 32 bits of the fractional parts of the
    cube roots of the first 64 primes, eight to a row. *)
Definition K256 : list Z :=
     [0x428a2f98; 0x71374491; 0xb5c0fbcf; 0xe9b5dba5; 0x3956c25b; 0x59f111f1; 0x923f82a4; 0xab1c5ed5]
  ++ [0xd807aa98; 0x12835b01; 0x243185be; 0x550c7dc3; 0x72be5d74; 0x80deb1fe; 0x9bdc06a7; 0xc19bf174]
  ++ [0xe49b69c1; 0xefbe4786; 0x0fc19dc6; 0x240ca1cc; 0x2de92c6f; 0x4a7484aa; 0x5cb0a9dc; 0x76f988da]
  ++ [0x983e5152; 0xa831c66d; 0xb00327c8; 0xbf597fc7; 0xc6e00bf3; 0xd5a79147; 0x06ca6351; 0x14292967]
  ++ [0x27b70a85; 0x2e1b2138; 0x4d2c6dfc; 0x53380d13; 0x650a7354; 0x766a0abb; 0x81c2c92e; 0x92722c85]
  ++ [0xa2bfe8a1; 0xa81a664b; 0xc24b8b70; 0xc76c51a3; 0xd192e819; 0xd6990624; 0xf40e3585; 0x106aa070]
  ++ [0x19a4c116; 0x1e376c08; 0x2748774c; 0x34b0bcb5; 0x391c0cb3; 0x4ed8aa4a; 0x5b9cca4f; 0x682e6ff3]
  ++ [0x748f82ee; 0x78a5636f; 0x84c87814; 0x8cc70208; 0x90befffa; 0xa4506ceb; 0xbef9a3f7; 0xc67178f2].


(** The eight working variables, and also the running hash value. *)
Record regs : Type := Regs {
  ra : Z; rb : Z; rc : Z; rd : Z; re : Z; rf : Z; rg : Z; rh : Z
}.

Definition H0 : regs :=
  Regs 0x6a09e667 0xbb67ae85 0x3c6ef372 0xa54ff53a
       0x510e527f 0x9b05688c 0x1f83d9ab 0x5be0cd19.

Definition round (k wt : Z) (s : regs) : regs :=
  let t1 := add32 (add32 (add32 (add32 (rh s) (Sigma1 (re s)))
                                (Ch (re s) (rf s) (rg s))) k) wt in
  let t2 := add32 (Sigma0 (ra s)) (Maj (ra s) (rb s) (rc s)) in
  Regs (add32 t1 t2) (ra s) (rb s) (rc s) (add32 (rd s) t1) (re s) (rf s) (rg s).

(** The 64 rounds of one block.  [w] is the sliding window W[t..t+15] of
    the message schedule. *)
Fixpoint rounds (ks : list Z) (w : list Z) (s : regs) : regs :=
  match ks with
  | [] => s
  | k :: ks' =>
      let wt := nth 0 w 0 in
      let wnew := add32 (add32 (sigma1 (nth 14 w 0)) (nth 9 w 0))
                        (add32 (sigma0 (nth 1 w 0)) wt) in
      rounds ks' (tl w ++ [wnew])%list (round k wt s)
  end.

Definition compress (h : regs) (block : list Z) : regs :=
  let s := rounds K256 block h in
  Regs (add32 (ra h) (ra s)) (add32 (rb h) (rb s))
       (add32 (rc h) (rc s)) (add32 (rd h) (rd s))
       (add32 (re h) (re s)) (add32 (rf h) (rf s))
       (add32 (rg h) (rg s)) (add32 (rh h) (rh s)).

Fixpoint blocks (n : nat) (ws : list Z) (h : regs) : regs :=
  match n with
  | O => h
  | S n' => blocks n' (skipn 16 ws) (compress h (firstn 16 ws))
  end.

(** Big-endian packing of bytes into 32-bit words and back. *)
Fixpoint words_of_bytes (bs : list Z) : list Z :=
  match bs with
  | b0 :: b1 :: b2 :: b3 :: rest =>
      (Z.shiftl b0 24 + Z.shiftl b1 16 + Z.shiftl b2 8 + b3) :: words_of_bytes rest
  | _ => []
  end.

Definition bytes_of_word (x : Z) : bytes :=
  [ byte_of_Z (Z.land (Z.shiftr x 24) 255); byte_of_Z (Z.land (Z.shiftr x 16) 255);
    byte_of_Z (Z.land (Z.shiftr x 8) 255);  byte_of_Z (Z.land x 255) ].

(** Padding: a 1 bit, zeros up to 56 mod 64 bytes, the bit length on 64 bits. *)
Definition pad (m : bytes) : list Z :=
  let len := Z.of_nat (List.length m) in
  let zeros := Z.to_nat ((55 - len) mod 64) in
  let bits := 8 * len in
  (map Z_of_byte m ++ [128] ++ repeat 0 zeros
    ++ map (fun i => Z.land (Z.shiftr bits (8 * i)) 255) [7; 6; 5; 4; 3; 2; 1; 0])%list.

(** [hashlib.sha256(m).digest()] *)
Definition sha256 (m : bytes) : bytes :=
  let ws := words_of_bytes (pad m) in
  let h := blocks (List.length ws / 16) ws H0 in
  (bytes_of_word (ra h) ++ bytes_of_word (rb h) ++ bytes_of_word (rc h)
    ++ bytes_of_word (rd h) ++ bytes_of_word (re h) ++ bytes_of_word (rf h)
    ++ bytes_of_word (rg h) ++ bytes_of_word (rh h))%list.

(** Hexadecimal digits, lower case as [hexdigest] writes them. *)
Definition hexdigit (n : N) : ascii :=
  if (n <? 10)%N then ascii_of_N (48 + n) else ascii_of_N (87 + n).

Fixpoint hex_of_bytes (bs : bytes) : str :=
  match bs with
  | [] => EmptyString
  | b :: rest =>
      let n := Byte.to_N b in
      String (hexdigit (n / 16)) (String (hexdigit (n mod 16)) (hex_of_bytes rest))
  end.

(** [hashlib.sha256(m).hexdigest()] *)
Definition hexdigest (m : bytes) : str := hex_of_bytes (sha256 m).

(** The value of one base-16 digit, in either case. *)
Definition digit16 (c : ascii) : option Z :=
  let n := N_of_ascii c in
  if ((48 <=? n) && (n <=? 57))%N then Some (Z.of_N (n - 48))
  else if ((97 <=? n) && (n <=? 102))%N then Some (Z.of_N (n - 87))
  else if ((65 <=? n) && (n <=? 70))%N then Some (Z.of_N (n - 55))
  else None.

Fixpoint int16_digits (acc : Z) (s : str) : result Z :=
  match s with
  | EmptyString => inr acc
  | String c s' =>
      match digit16 c with
      | Some d => int16_digits (16 * acc + d) s'
      | None => inl ValueError
      end
  end.

(** [int(s, 16)] on a run of hexadecimal digits; the empty string and any
    other character raise [ValueError].  (Signs, a [0x] prefix, underscores
    and surrounding blanks, which [int] also reads, never occur in a
    [hexdigest].) *)
Definition int16 (s : str) : result Z :=
  match s with
  | EmptyString => inl ValueError
  | _ => int16_digits 0 s
  end.

(** The digest read as one big-endian unsigned integer,
    [int.from_bytes(bs, "big")]: the reading the specification names. *)
Definition big_endian_integer (bs : bytes) : Z :=
  fold_left (fun acc b => 256 * acc + Z_of_byte b) bs 0.

End Hashlib.

(* ================================================================== *)
(** ** The HTTP objects [proxy] touches *)
(* ================================================================== *)

(** Starlette's request and response objects. *)
Module Starlette.
Import Py.

(** [request.headers]: an immutable multi-dict over the header lines in the
    order received, repeated names included. *)
Module Headers.
Definition t := list (str * str).

(** [headers.items()] lists every header line. *)
Definition items (h : t) : list (str * str) := h.

(** [headers.get(key)]: the value of the first line whose name is
    [key.lower()], or [None]. *)
Definition get (h : t) (key : str) : option str := getitem h (lower key).
End Headers.

Module Request.
Record t : Type := {
  method : str;
  query : str;               (* request.url.query, never read by [proxy] *)
  headers : Headers.t;
  body : bytes               (* await request.body() *)
}.
End Request.

(** The response object: what [Response(content=_, status_code=_, headers=_)]
    leaves in [status_code], [body] and [raw_headers]. *)
Module Response.
Record t : Type := {
  status_code : Z;
  body : bytes;
  raw_headers : list (bytes * bytes)
}.

(** The comprehension of [init_headers]:
    [(k.lower().encode("latin-1"), v.encode("latin-1"))] for each item. *)
Fixpoint encode_headers (headers : dict text) : result (list (bytes * bytes)) :=
  match headers with
  | [] => inr []
  | (k, v) :: rest =>
      match encode_latin1 v with
      | inl e => inl e
      | inr v' =>
          match encode_headers rest with
          | inl e => inl e
          | inr lines => inr ((str_latin1 (lower k), v') :: lines)
          end
      end
  end.

Fixpoint bytes_eqb (a b : bytes) : bool :=
  match a, b with
  | [], [] => true
  | x :: a', y :: b' => Byte.eqb x y && bytes_eqb a' b'
  | _, _ => false
  end.

(** Statuses that carry no body: below 200, 204 and 304. *)
Definition has_no_body (status_code : Z) : bool :=
  (status_code <? 200) || (status_code =? 204) || (status_code =? 304).

(** [init_headers]: the given headers, and a content-length for the body
    when they name none and the status allows a body.  ([media_type] is
    [None], so no content-type is added.) *)
Definition init_headers (status_code : Z) (body : bytes) (headers : dict text)
  : result (list (bytes * bytes)) :=
  match encode_headers headers with
  | inl e => inl e
  | inr raw_headers =>
      let populate_content_length :=
        negb (existsb (bytes_eqb (str_latin1 "content-length")) (map fst raw_headers)) in
      if populate_content_length && negb (has_no_body status_code) then
        inr (raw_headers
               ++ [(str_latin1 "content-length",
                    str_latin1 (str_of_int (Z.of_nat (List.length body))))])
      else inr raw_headers
  end.

(** [Response(content=content, status_code=status_code, headers=headers)] *)
Definition new (content : bytes) (status_code : Z) (headers : dict text)
  : result t :=
  match init_headers status_code content headers with
  | inl e => inl e
  | inr raw => inr {| status_code := status_code; body := content; raw_headers := raw |}
  end.
End Response.

End Starlette.

(** httpx: the keyword arguments of [client.request] together with the
    client's timeout, and the response object that comes back. *)
Module Httpx.
Import Py.

Module Call.
Record t : Type := {
  method : str;
  url : str;
  headers : dict str;
  content : bytes;
  timeout : Z
}.
End Call.

(** [resp.headers]: the header lines of the response as received, each a
    name and the bytes of its value.  A name is an HTTP token (the client
    accepts no other), hence ASCII, and is held as a [str].  Seen as a
    mapping, the keys are the lower-cased names, each once, and the value
    under a key is the decoded values of all lines of that name joined by
    ", ". *)
Module Headers.
Definition t := list (str * bytes).

Inductive codec : Type := Ascii | Utf8 | Latin1.

(** [h.encoding]: ascii when every value is, else utf-8 when every value
    decodes, else iso-8859-1. *)
Definition encoding (h : t) : codec :=
  if forallb (fun kv => is_ascii (snd kv)) h then Ascii
  else if forallb (fun kv => match decode_utf8 (snd kv) with
                             | Some _ => true
                             | None => false
                             end) h then Utf8
  else Latin1.

(** [value.decode(encoding)] *)
Definition decode (c : codec) (b : bytes) : result text :=
  match c with
  | Ascii => if is_ascii b then inr (decode_latin1 b) else inl UnicodeDecodeError
  | Utf8 =>
      match decode_utf8 b with
      | Some v => inr v
      | None => inl UnicodeDecodeError
      end
  | Latin1 => inr (decode_latin1 b)
  end.

Fixpoint decode_all (c : codec) (values : list bytes) : result (list text) :=
  match values with
  | [] => inr []
  | b :: rest =>
      match decode c b with
      | inl e => inl e
      | inr v =>
          match decode_all c rest with
          | inl e => inl e
          | inr vs => inr (v :: vs)
          end
      end
  end.

Definition keys (h : t) : list str :=
  Py.keys (dict_of_items (map (fun kv => (lower (fst kv), tt)) h)).

Definition get_list (h : t) (key : str) : result (list text) :=
  decode_all (encoding h)
    (map snd (filter (fun kv => String.eqb (lower (fst kv)) (lower key)) h)).

(** [h[key]] *)
Definition getitem (h : t) (key : str) : result text :=
  match get_list h key with
  | inl e => inl e
  | inr [] => inl KeyError
  | inr found => inr (join_text [44; 32]%N found)
  end.

(** [dict(h)] for a mapping [h] that is not itself a [dict]: walk
    [h.keys()] and store [h[k]] under each [k]. *)
Fixpoint dict_from_keys (h : t) (ks : list str) (d : dict text)
  : result (dict text) :=
  match ks with
  | [] => inr d
  | k :: ks' =>
      match getitem h k with
      | inl e => inl e
      | inr v => dict_from_keys h ks' (setitem d k v)
      end
  end.

Definition to_dict (h : t) : result (dict text) :=
  dict_from_keys h (keys h) [].
End Headers.

(** The response object.  [content] is the body as the client presents it,
    with any content-encoding of the upstream body already undone. *)
Module Response.
Record t : Type := {
  status_code : Z;
  headers : Headers.t;
  content : bytes
}.
End Response.

End Httpx.

(* ================================================================== *)
(** ** Effects: what a run of [proxy] does besides returning *)
(* ================================================================== *)

Module Run.
Import Py.

Inductive event : Type :=
| LogInfo (line : str)              (* logger.info(line) *)
| Upstream (call : Httpx.Call.t).     (* await client.request(...) *)

(** A computation extends the trace of events and returns or raises. *)
Definition M (A : Type) : Type := list event -> result A * list event.

Definition ret {A} (a : A) : M A := fun t => (inr a, t).

Definition bind {A B} (m : M A) (k : A -> M B) : M B :=
  fun t =>
    match m t with
    | (inl e, t') => (inl e, t')
    | (inr a, t') => k a t'
    end.

Definition lift {A} (r : result A) : M A := fun t => (r, t).

Definition emit (e : event) : M unit := fun t => (inr tt, t ++ [e]).

Definition run {A} (m : M A) : result A * list event := m [].

(** The upstream calls of a trace, in order. *)
Fixpoint calls (t : list event) : list Httpx.Call.t :=
  match t with
  | [] => []
  | Upstream c :: t' => c :: calls t'
  | LogInfo _ :: t' => calls t'
  end.

End Run.

Notation "x <- m ;; k" := (Run.bind m (fun x => k))
  (at level 61, m at next level, right associativity).
Notation "m ;;; k" := (Run.bind m (fun _ => k))
  (at level 61, right associativity).

(* ================================================================== *)
(** ** The program *)
(* ================================================================== *)

Import Py.

(** The namespace [parse_args] returns. *)
Record Args : Type := {
  backend : str;
  dp_size : Z;
  routing_header : str;
  host : str;
  port : Z;
  timeout : Z
}.

(** Line 86:
    [int(hashlib.sha256(routing_key.encode()).hexdigest(), 16) % args.dp_size] *)
Definition rank_of (routing_key : str) (dp_size : Z) : result Z :=
  match Hashlib.int16 (Hashlib.hexdigest (encode routing_key)) with
  | inl e => inl e
  | inr n => mod_ n dp_size
  end.

Arguments Hashlib.sha256 : simpl never.
Arguments rank_of : simpl never.

(** Lines 95-99: the dict comprehension over [request.headers.items()]. *)
Definition not_in_stripped (k : str) : bool :=
  negb (existsb (String.eqb (lower k)) ["host"; "content-length"]).

Definition forwarded_headers (h : Starlette.Headers.t) : dict str :=
  dict_of_items
    (filter (fun kv => not_in_stripped (fst kv)) (Starlette.Headers.items h)).

(** Line 89: the f-string handed to [logger.info]. *)
Definition log_line (routing_key : str) (rank : Z) : str :=
  ("Routing key `" ++ routing_key ++ "` sent to DP rank `"
     ++ str_of_int rank ++ "`")%string.

(** Lines 103-107: the response built from the upstream response. *)
Definition relay (resp : Httpx.Response.t) : result Starlette.Response.t :=
  match Httpx.Headers.to_dict (Httpx.Response.headers resp) with
  | inl e => inl e
  | inr headers =>
      Starlette.Response.new (Httpx.Response.content resp)
        (Httpx.Response.status_code resp) headers
  end.

Section Proxy.
(** [json.loads] on the body, [json.dumps] on the rewritten document, and
    the answer of the backend to a call (or the exception the client
    raises); [args] is the module-level configuration. *)
Variable json_loads : bytes -> result value.
Variable json_dumps : value -> result str.
Variable client_request : Httpx.Call.t -> result Httpx.Response.t.
Variable args : Args.

(** Lines 82-89. *)
Definition rewrite_body (request : Starlette.Request.t) : Run.M bytes :=
  let body := Starlette.Request.body request in
  if String.eqb (Starlette.Request.method request) "POST" && bytes_bool body then
    match Starlette.Headers.get (Starlette.Request.headers request)
                                (routing_header args) with
    | Some routing_key =>
        if str_bool routing_key then
          data <- Run.lift (json_loads body) ;;
          rank <- Run.lift (rank_of routing_key (dp_size args)) ;;
          data <- Run.lift (value_setitem data "data_parallel_rank" (PyInt rank)) ;;
          text <- Run.lift (json_dumps data) ;;
          let body := encode text in
          Run.emit (Run.LogInfo (log_line routing_key rank)) ;;;
          Run.ret body
        else Run.ret body
    | None => Run.ret body
    end
  else Run.ret body.

(** Lines 92-101: the arguments of [client.request]. *)
Definition outbound (path : str) (request : Starlette.Request.t) (body : bytes)
  : Httpx.Call.t :=
  {| Httpx.Call.method := Starlette.Request.method request;
     Httpx.Call.url := (backend args ++ "/" ++ path)%string;
     Httpx.Call.headers := forwarded_headers (Starlette.Request.headers request);
     Httpx.Call.content := body;
     Httpx.Call.timeout := timeout args |}.

Definition send (call : Httpx.Call.t) : Run.M Httpx.Response.t :=
  Run.emit (Run.Upstream call) ;;; Run.lift (client_request call).

(** The handler, lines 79-107. *)
Definition proxy (path : str) (request : Starlette.Request.t)
  : Run.M Starlette.Response.t :=
  body <- rewrite_body request ;;
  resp <- send (outbound path request body) ;;
  Run.lift (relay resp).
End Proxy.

(** The condition under which lines 85-89 run: a POST with a body that is
    not empty, whose routing header has the non-empty value [routing_key]. *)
Definition carries_key (args : Args) (request : Starlette.Request.t)
  (routing_key : str) : Prop :=
  Starlette.Request.method request = "POST"
  /\ bytes_bool (Starlette.Request.body request) = true
  /\ Starlette.Headers.get (Starlette.Request.headers request)
                           (routing_header args) = Some routing_key
  /\ str_bool routing_key = true.


(* ================================================================== *)
(** ** A reference JSON codec *)
(* ================================================================== *)

(** [json.loads] and [json.dumps] with their default options, on the
    fragment of JSON without floating-point numbers and with text in the
    repertoire of [str] above.  A document outside the fragment is refused.
    The theorems about [proxy] hold for every codec; this one lets the
    handler run on concrete requests. *)
Module RefJson.

Definition dquote : ascii := ascii_of_N 34.

Definition is_ws (c : ascii) : bool :=
  let n := N_of_ascii c in ((n =? 32) || (n =? 9) || (n =? 10) || (n =? 13))%N.

Definition is_digit (c : ascii) : bool :=
  let n := N_of_ascii c in ((48 <=? n) && (n <=? 57))%N.

Fixpoint skip_ws (s : str) : str :=
  match s with
  | String c r => if is_ws c then skip_ws r else s
  | EmptyString => s
  end.

(** UTF-8 decoding of the body into the repertoire of [str]. *)
Fixpoint decode (b : bytes) : result str :=
  match b with
  | [] => inr EmptyString
  | x :: rest =>
      let n := Byte.to_N x in
      if (n <? 128)%N then
        match decode rest with
        | inr s => inr (String (ascii_of_N n) s)
        | inl e => inl e
        end
      else
        match rest with
        | y :: rest' =>
            let m := Byte.to_N y in
            if ((194 <=? n) && (n <=? 195) && (128 <=? m) && (m <=? 191))%N then
              match decode rest' with
              | inr s => inr (String (ascii_of_N ((n - 192) * 64 + (m - 128))) s)
              | inl e => inl e
              end
            else inl UnicodeDecodeError
        | [] => inl UnicodeDecodeError
        end
  end.

Definition push (c : ascii) (r : option (str * str)) : option (str * str) :=
  match r with
  | Some (s, rest) => Some (String c s, rest)
  | None => None
  end.

Definition hex4 (a b c d : ascii) : option Z :=
  match Hashlib.digit16 a, Hashlib.digit16 b, Hashlib.digit16 c, Hashlib.digit16 d with
  | Some x, Some y, Some z, Some w => Some (((x * 16 + y) * 16 + z) * 16 + w)
  | _, _, _, _ => None
  end.

(** The characters of a string literal after its opening quote, and what
    follows the closing quote. *)
Fixpoint scan_string (s : str) : option (str * str) :=
  match s with
  | EmptyString => None
  | String c r =>
      if Ascii.eqb c dquote then Some (EmptyString, r)
      else if Ascii.eqb c "\" then
        match r with
        | String e r' =>
            if Ascii.eqb e dquote then push dquote (scan_string r')
            else if Ascii.eqb e "\" then push "\" (scan_string r')
            else if Ascii.eqb e "/" then push "/" (scan_string r')
            else if Ascii.eqb e "b" then push "008" (scan_string r')
            else if Ascii.eqb e "f" then push "012" (scan_string r')
            else if Ascii.eqb e "n" then push "010" (scan_string r')
            else if Ascii.eqb e "r" then push "013" (scan_string r')
            else if Ascii.eqb e "t" then push "009" (scan_string r')
            else if Ascii.eqb e "u" then
              match r' with
              | String h1 (String h2 (String h3 (String h4 r''))) =>
                  match hex4 h1 h2 h3 h4 with
                  | Some n =>
                      if n <? 256 then push (ascii_of_N (Z.to_N n)) (scan_string r'')
                      else None
                  | None => None
                  end
              | _ => None
              end
            else None
        | EmptyString => None
        end
      else if (N_of_ascii c <? 32)%N then None
      else push c (scan_string r)
  end.

(** A run of decimal digits read as a number, and what follows it. *)
Fixpoint scan_digits (acc : Z) (s : str) : Z * str :=
  match s with
  | String c r =>
      if is_digit c then scan_digits (10 * acc + Z.of_N (N_of_ascii c - 48)) r
      else (acc, s)
  | EmptyString => (acc, s)
  end.

Definition starts_fraction (s : str) : bool :=
  match s with
  | String c _ => Ascii.eqb c "." || Ascii.eqb c "e" || Ascii.eqb c "E"
  | EmptyString => false
  end.

(** An optional minus sign, then 0 or a digit run that does not start with
    0; not followed by a fraction or an exponent. *)
Definition scan_int (s : str) : option (Z * str) :=
  let '(sign, s1) :=
    match s with
    | String c r => if Ascii.eqb c "-" then (-1, r) else (1, s)
    | EmptyString => (1, s)
    end in
  match s1 with
  | String c r =>
      if Ascii.eqb c "0" then
        if starts_fraction r then None else Some (0, r)
      else if is_digit c then
        let '(n, rest) := scan_digits 0 s1 in
        if starts_fraction rest then None else Some (sign * n, rest)
      else None
  | EmptyString => None
  end.

Fixpoint strip_prefix (p s : str) : option str :=
  match p, s with
  | EmptyString, _ => Some s
  | String a p', String b s' => if Ascii.eqb a b then strip_prefix p' s' else None
  | String _ _, EmptyString => None
  end.

Definition quoted (s : str) : option (str * str) :=
  match s with
  | String c r => if Ascii.eqb c dquote then scan_string r else None
  | EmptyString => None
  end.

(** Recursive descent; [fuel] bounds the number of calls. *)
Fixpoint parse_value (fuel : nat) (s : str) : option (value * str) :=
  match fuel with
  | O => None
  | S fuel' =>
      match s with
      | EmptyString => None
      | String c r =>
          if Ascii.eqb c "{" then
            match skip_ws r with
            | String c' r' =>
                if Ascii.eqb c' "}" then Some (PyDict [], r')
                else parse_members fuel' (skip_ws r) []
            | EmptyString => None
            end
          else if Ascii.eqb c "[" then
            match skip_ws r with
            | String c' r' =>
                if Ascii.eqb c' "]" then Some (PyList [], r')
                else parse_elements fuel' (skip_ws r) []
            | EmptyString => None
            end
          else if Ascii.eqb c dquote then
            match scan_string r with
            | Some (text, rest) => Some (PyStr text, rest)
            | None => None
            end
          else if Ascii.eqb c "n" then
            option_map (pair PyNone) (strip_prefix "null" s)
          else if Ascii.eqb c "t" then
            option_map (pair (PyBool true)) (strip_prefix "true" s)
          else if Ascii.eqb c "f" then
            option_map (pair (PyBool false)) (strip_prefix "false" s)
          else
            match scan_int s with
            | Some (n, rest) => Some (PyInt n, rest)
            | None => None
            end
      end
  end

(** After "[" and after each ",": a value, then "," or "]".  [acc] holds the
    elements read so far, last first. *)
with parse_elements (fuel : nat) (s : str) (acc : list value)
  : option (value * str) :=
  match fuel with
  | O => None
  | S fuel' =>
      match parse_value fuel' s with
      | Some (v, rest) =>
          match skip_ws rest with
          | String c r =>
              if Ascii.eqb c "," then parse_elements fuel' (skip_ws r) (v :: acc)
              else if Ascii.eqb c "]" then Some (PyList (rev (v :: acc)), r)
              else None
          | EmptyString => None
          end
      | None => None
      end
  end

(** After "{" and after each ",": a quoted key, ":", a value, then "," or
    "}".  [acc] is the dict built so far; a repeated key overwrites. *)
with parse_members (fuel : nat) (s : str) (acc : dict value)
  : option (value * str) :=
  match fuel with
  | O => None
  | S fuel' =>
      match quoted s with
      | Some (k, rest) =>
          match skip_ws rest with
          | String c r =>
              if Ascii.eqb c ":" then
                match parse_value fuel' (skip_ws r) with
                | Some (v, rest') =>
                    match skip_ws rest' with
                    | String c' r' =>
                        if Ascii.eqb c' "," then
                          parse_members fuel' (skip_ws r') (setitem acc k v)
                        else if Ascii.eqb c' "}" then
                          Some (PyDict (setitem acc k v), r')
                        else None
                    | EmptyString => None
                    end
                | None => None
                end
              else None
          | EmptyString => None
          end
      | None => None
      end
  end.

(** [json.loads(body)] *)
Definition loads (body : bytes) : result value :=
  match decode body with
  | inl e => inl e
  | inr text =>
      match parse_value (2 * String.length text + 2) (skip_ws text) with
      | Some (v, rest) =>
          match skip_ws rest with
          | EmptyString => inr v
          | String _ _ => inl JSONDecodeError
          end
      | None => inl JSONDecodeError
      end
  end.

(** String literals as [json.dumps] writes them: everything outside
    space..tilde is escaped. *)
Definition escape_char (c : ascii) : str :=
  let n := N_of_ascii c in
  if Ascii.eqb c dquote then String "\" (String dquote EmptyString)
  else if Ascii.eqb c "\" then "\\"
  else if (n =? 10)%N then "\n"
  else if (n =? 13)%N then "\r"
  else if (n =? 9)%N then "\t"
  else if (n =? 8)%N then "\b"
  else if (n =? 12)%N then "\f"
  else if ((32 <=? n) && (n <=? 126))%N then String c EmptyString
  else String "\" (String "u" (String "0" (String "0"
         (String (Hashlib.hexdigit (n / 16)) (String (Hashlib.hexdigit (n mod 16)) EmptyString))))).

Fixpoint escape (s : str) : str :=
  match s with
  | EmptyString => EmptyString
  | String c r => (escape_char c ++ escape r)%string
  end.

Definition quote (s : str) : str := (String dquote (escape s) ++ String dquote EmptyString)%string.

Definition cons_result {A} (x : result A) (xs : result (list A)) : result (list A) :=
  match x, xs with
  | inl e, _ => inl e
  | inr _, inl e => inl e
  | inr a, inr l => inr (a :: l)
  end.

(** [json.dumps(data)] *)
Fixpoint dumps (v : value) : result str :=
  match v with
  | PyNone => inr "null"
  | PyBool true => inr "true"
  | PyBool false => inr "false"
  | PyInt z => inr (str_of_int z)
  | PyFloat _ => inl ValueError
  | PyStr s => inr (quote s)
  | PyList items =>
      match (fix each (l : list value) : result (list str) :=
               match l with
               | [] => inr []
               | x :: l' => cons_result (dumps x) (each l')
               end) items with
      | inl e => inl e
      | inr parts => inr ("[" ++ join ", " parts ++ "]")%string
      end
  | PyDict d =>
      match (fix each (l : list (str * value)) : result (list str) :=
               match l with
               | [] => inr []
               | (k, x) :: l' =>
                   cons_result
                     (match dumps x with
                      | inl e => inl e
                      | inr t => inr (quote k ++ ": " ++ t)%string
                      end)
                     (each l')
               end) d with
      | inl e => inl e
      | inr parts => inr ("{" ++ join ", " parts ++ "}")%string
      end
  end.

End RefJson.

(** Bodies in the examples are written with an apostrophe where JSON has a
    double quote. *)
Fixpoint json_text (s : str) : str :=
  match s with
  | EmptyString => EmptyString
  | String c r => String (if Ascii.eqb c "'" then RefJson.dquote else c) (json_text r)
  end.

(** Requests and backends of the scenarios. *)
Module Example.

Definition args : Args :=
  {| backend := "http://127.0.0.1:8000";
     dp_size := 16;
     routing_header := "X-SMG-Routing-Key";
     host := "0.0.0.0";
     port := 9000;
     timeout := 600 |}.

Definition reply : Httpx.Response.t :=
  {| Httpx.Response.status_code := 200;
     Httpx.Response.headers :=
       [("content-type", encode "application/json"); ("content-length", encode "2")];
     Httpx.Response.content := encode "{}" |}.

Definition backend_ok (call : Httpx.Call.t) : result Httpx.Response.t := inr reply.



(** Scenario A: routing key abc, sixteen ranks. *)
Definition scenario_A : Starlette.Request.t :=
  {| Starlette.Request.method := "POST";
     Starlette.Request.query := EmptyString;
     Starlette.Request.headers :=
       [("host", "127.0.0.1:9000"); ("content-type", "application/json");
        ("x-smg-routing-key", "abc"); ("content-length", "15")];
     Starlette.Request.body := encode (json_text "{'prompt':'hi'}") |}.

(** Scenario C: a GET that carries the routing header. *)
Definition scenario_C : Starlette.Request.t :=
  {| Starlette.Request.method := "GET";
     Starlette.Request.query := "stream=1";
     Starlette.Request.headers := [("host", "127.0.0.1:9000"); ("x-smg-routing-key", "abc")];
     Starlette.Request.body := [] |}.

(** Scenario D: the body is a JSON array. *)
Definition scenario_D : Starlette.Request.t :=
  {| Starlette.Request.method := "POST";
     Starlette.Request.query := EmptyString;
     Starlette.Request.headers := [("x-smg-routing-key", "abc"); ("content-length", "6")];
     Starlette.Request.body := encode "[1, 2]" |}.

(** Scenario E: a POST without the routing header. *)
Definition scenario_E : Starlette.Request.t :=
  {| Starlette.Request.method := "POST";
     Starlette.Request.query := EmptyString;
     Starlette.Request.headers := [("content-type", "application/json")];
     Starlette.Request.body := encode (json_text "{'prompt':'hi'}") |}.

(** A request that repeats a header name. *)
Definition repeated_accept : Starlette.Request.t :=
  {| Starlette.Request.method := "GET";
     Starlette.Request.query := EmptyString;
     Starlette.Request.headers :=
       [("host", "127.0.0.1:9000"); ("accept", "text/html"); ("accept", "application/json")];
     Starlette.Request.body := [] |}.

(** A misconfigured partition count: zero, and negative. *)
Definition args_zero : Args :=
  {| backend := "http://127.0.0.1:8000";
     dp_size := 0;
     routing_header := "X-SMG-Routing-Key";
     host := "0.0.0.0";
     port := 9000;
     timeout := 600 |}.

Definition args_negative : Args :=
  {| backend := "http://127.0.0.1:8000";
     dp_size := -16;
     routing_header := "X-SMG-Routing-Key";
     host := "0.0.0.0";
     port := 9000;
     timeout := 600 |}.

(** A backend that cannot be reached. *)
Definition backend_down (call : Httpx.Call.t) : result Httpx.Response.t :=
  inl (HTTPError "ConnectError").



(** A backend whose header value is e-acute, U+00E9, in UTF-8. *)
Definition reply_eacute : Httpx.Response.t :=
  {| Httpx.Response.status_code := 200;
     Httpx.Response.headers :=
       [("x-name", [Byte.xc3; Byte.xa9]); ("content-length", encode "2")];
     Httpx.Response.content := encode "{}" |}.

Definition backend_eacute (call : Httpx.Call.t) : result Httpx.Response.t :=
  inr reply_eacute.

(** A request that sends the routing header twice. *)
Definition two_keys : Starlette.Request.t :=
  {| Starlette.Request.method := "POST";
     Starlette.Request.query := EmptyString;
     Starlette.Request.headers :=
       [("x-smg-routing-key", "abc"); ("content-type", "application/json");
        ("x-smg-routing-key", "xyz")];
     Starlette.Request.body := encode (json_text "{'prompt':'hi'}") |}.

(** A body that already names a rank, before its other field. *)
Definition ranked_already : Starlette.Request.t :=
  {| Starlette.Request.method := "POST";
     Starlette.Request.query := EmptyString;
     Starlette.Request.headers := [("x-smg-routing-key", "abc")];
     Starlette.Request.body :=
       encode (json_text "{'data_parallel_rank': 99, 'prompt': 'hi'}") |}.

(** Scenario A sent again with the body the proxy made of it. *)
Definition scenario_A_again : Starlette.Request.t :=
  {| Starlette.Request.method := "POST";
     Starlette.Request.query := EmptyString;
     Starlette.Request.headers :=
       [("content-type", "application/json"); ("x-smg-routing-key", "abc")];
     Starlette.Request.body :=
       encode (json_text "{'prompt': 'hi', 'data_parallel_rank': 13}") |}.

End Example.

(* ================================================================== *)
(** ** Facts about the Python built-ins *)
(* ================================================================== *)

Section DictFacts.
Context {V : Type}.
Implicit Types (d : dict V) (k : str) (v : V).

Lemma getitem_setitem_same d k v : getitem (setitem d k v) k = Some v.
Proof.
  induction d as [|[k' v'] d IH]; simpl.
  - now rewrite String.eqb_refl.
  - destruct (String.eqb k' k) eqn:E; simpl; rewrite E; auto.
Qed.

Lemma getitem_setitem_other d k k0 v :
  k0 <> k -> getitem (setitem d k v) k0 = getitem d k0.
Proof.
  intros Hne. induction d as [|[k' v'] d IH]; simpl.
  - destruct (String.eqb k k0) eqn:E; auto.
    apply String.eqb_eq in E. congruence.
  - destruct (String.eqb k' k) eqn:E; simpl.
    + apply String.eqb_eq in E; subst k'.
      destruct (String.eqb k k0) eqn:E0; auto.
      apply String.eqb_eq in E0. congruence.
    + now rewrite IH.
Qed.

Lemma getitem_None_keys d k : getitem d k = None <-> ~ In k (keys d).
Proof.
  induction d as [|[k' v'] d IH]; simpl.
  - tauto.
  - destruct (String.eqb k' k) eqn:E.
    + apply String.eqb_eq in E. split; [discriminate | tauto].
    + apply String.eqb_neq in E. rewrite IH. tauto.
Qed.

Lemma setitem_fresh d k v : ~ In k (keys d) -> setitem d k v = d ++ [(k, v)].
Proof.
  induction d as [|[k' v'] d IH]; simpl; intros Hn; auto.
  destruct (String.eqb k' k) eqn:E.
  - apply String.eqb_eq in E. tauto.
  - rewrite IH; tauto.
Qed.

Lemma keys_setitem d k v :
  keys (setitem d k v) =
    match getitem d k with Some _ => keys d | None => keys d ++ [k] end.
Proof.
  induction d as [|[k' v'] d IH]; simpl; auto.
  destruct (String.eqb k' k) eqn:E; simpl; auto.
  rewrite IH. now destruct (getitem d k).
Qed.

Lemma In_keys_setitem d k v k0 :
  In k0 (keys (setitem d k v)) <-> k0 = k \/ In k0 (keys d).
Proof.
  rewrite keys_setitem. destruct (getitem d k) eqn:E.
  - split; auto. intros [->|H]; auto.
    destruct (in_dec string_dec k (keys d)) as [Hin|Hn]; auto.
    apply getitem_None_keys in Hn. congruence.
  - rewrite in_app_iff. simpl. intuition congruence.
Qed.

Lemma NoDup_keys_setitem d k v : NoDup (keys d) -> NoDup (keys (setitem d k v)).
Proof.
  intros Hd. rewrite keys_setitem. destruct (getitem d k) eqn:E; auto.
  apply getitem_None_keys in E.
  apply NoDup_app; auto.
  - repeat constructor. simpl. tauto.
  - intros x Hx [<-|[]]. auto.
Qed.

Lemma In_setitem d k v k0 v0 :
  In (k0, v0) (setitem d k v) -> (k0, v0) = (k, v) \/ In (k0, v0) d.
Proof.
  induction d as [|[k' v'] d IH]; simpl.
  - intros [H|[]]; auto.
  - destruct (String.eqb k' k) eqn:E; simpl.
    + apply String.eqb_eq in E; subst k'. intros [H|H]; auto.
    + intros [H|H]; auto. destruct (IH H); auto.
Qed.

Lemma In_getitem d k v : NoDup (keys d) -> In (k, v) d -> getitem d k = Some v.
Proof.
  induction d as [|[k' v'] d IH]; simpl; [tauto|].
  intros Hnd [H|H].
  - injection H as -> ->. now rewrite String.eqb_refl.
  - inversion Hnd as [|? ? Hn Hd]; subst.
    destruct (String.eqb k' k) eqn:E.
    + apply String.eqb_eq in E; subst k'.
      exfalso. apply Hn. change k with (fst (k, v)). now apply in_map.
    + auto.
Qed.

Lemma getitem_In d k v : getitem d k = Some v -> In (k, v) d.
Proof.
  induction d as [|[k' v'] d IH]; simpl; [discriminate|].
  destruct (String.eqb k' k) eqn:E.
  - apply String.eqb_eq in E; subst k'. intros [= ->]. auto.
  - auto.
Qed.

Lemma NoDup_keys_update items d : NoDup (keys d) -> NoDup (keys (update d items)).
Proof.
  revert d. induction items as [|[k v] items IH]; simpl; intros d Hd; auto.
  apply IH. now apply NoDup_keys_setitem.
Qed.


Lemma In_update items d k v :
  In (k, v) (update d items) -> In (k, v) d \/ In (k, v) items.
Proof.
  revert d. induction items as [|[k' v'] items IH]; simpl; intros d H; auto.
  destruct (IH _ H) as [H1|H1]; auto.
  destruct (In_setitem _ _ _ _ _ H1) as [H2|H2]; auto.
Qed.

(** A key holds the value of its last item. *)
Lemma getitem_update items d k :
  getitem (update d items) k =
    match getitem (rev items) k with
    | Some v => Some v
    | None => getitem d k
    end.
Proof.
  revert d. induction items as [|[k' v'] items IH]; simpl; intros d; auto.
  rewrite IH. clear IH.
  assert (Happ : forall (l1 l2 : dict V),
             getitem (l1 ++ l2) k =
               match getitem l1 k with Some v => Some v | None => getitem l2 k end).
  { induction l1 as [|[a b] l1 IH1]; simpl; intros l2; auto.
    destruct (String.eqb a k); auto. }
  rewrite Happ. destruct (getitem (rev items) k); auto. simpl.
  destruct (String.eqb k' k) eqn:E.
  - apply String.eqb_eq in E; subst. apply getitem_setitem_same.
  - apply String.eqb_neq in E. apply getitem_setitem_other. congruence.
Qed.

Lemma update_fresh items d :
  NoDup (keys d ++ map fst items) -> update d items = d ++ items.
Proof.
  revert d. induction items as [|[k v] items IH]; simpl; intros d Hnd.
  - now rewrite app_nil_r.
  - assert (Hk : ~ In k (keys d)).
    { apply NoDup_remove_2 in Hnd. rewrite in_app_iff in Hnd. tauto. }
    rewrite setitem_fresh by exact Hk. rewrite IH.
    + now rewrite <- app_assoc.
    + unfold keys in *. rewrite map_app, <- app_assoc. exact Hnd.
Qed.
End DictFacts.

Lemma lower_char_idem c : lower_char (lower_char c) = lower_char c.
Proof. destruct c as [[] [] [] [] [] [] [] []]; reflexivity. Qed.

Lemma lower_idem s : lower (lower s) = lower s.
Proof. induction s; simpl; [|rewrite lower_char_idem, IHs]; reflexivity. Qed.

Lemma str_bool_true s : str_bool s = true <-> s <> EmptyString.
Proof. destruct s; simpl; split; congruence. Qed.

Lemma bytes_bool_true (b : bytes) : bytes_bool b = true <-> b <> [].
Proof. destruct b; simpl; split; congruence. Qed.

(* ================================================================== *)
(** ** Facts about the digest and its reading as an integer *)
(* ================================================================== *)

Module HashlibFacts.
Import Hashlib.

Lemma digit16_hexdigit n :
  (n < 16)%N -> digit16 (hexdigit n) = Some (Z.of_N n).
Proof.
  intros H. destruct n as [|p]; [reflexivity|].
  do 4 (destruct p as [p|p|]; try reflexivity); exfalso; lia.
Qed.

Lemma byte_split (b : byte) (acc : Z) :
  16 * (16 * acc + Z.of_N (Byte.to_N b / 16)) + Z.of_N (Byte.to_N b mod 16)
  = 256 * acc + Z_of_byte b.
Proof.
  unfold Z_of_byte.
  pose proof (N.div_mod' (Byte.to_N b) 16) as H.
  apply (f_equal Z.of_N) in H. rewrite N2Z.inj_add, N2Z.inj_mul in H.
  change (Z.of_N 16) with 16 in H. lia.
Qed.

Lemma int16_digits_hex bs acc :
  int16_digits acc (hex_of_bytes bs)
  = inr (fold_left (fun a b => 256 * a + Z_of_byte b) bs acc).
Proof.
  revert acc. induction bs as [|b bs IH]; intros acc;
    cbn [hex_of_bytes int16_digits fold_left]; [reflexivity|].
  pose proof (Byte.to_N_bounded b) as Hb.
  rewrite digit16_hexdigit.
  2:{ apply N.Div0.div_lt_upper_bound. lia. }
  rewrite digit16_hexdigit by (apply N.mod_lt; lia).
  rewrite IH. now rewrite byte_split.
Qed.

(** [int(bs.hex(), 16)] is [int.from_bytes(bs, "big")], for [bs] not empty. *)
Lemma int16_hex_of_bytes bs :
  bs <> [] -> int16 (hex_of_bytes bs) = inr (big_endian_integer bs).
Proof.
  intros Hne. unfold int16, big_endian_integer.
  rewrite <- int16_digits_hex.
  destruct bs as [|b bs]; [congruence|]. reflexivity.
Qed.

(** A digest is 32 bytes long, whatever the message. *)
Lemma sha256_length m : List.length (sha256 m) = 32%nat.
Proof. reflexivity. Qed.

Lemma sha256_not_empty m : sha256 m <> [].
Proof. intros H. pose proof (sha256_length m) as L. rewrite H in L. discriminate. Qed.

Lemma big_endian_integer_bound bs :
  0 <= big_endian_integer bs < 256 ^ Z.of_nat (List.length bs).
Proof.
  unfold big_endian_integer.
  assert (G : forall bs acc n, 0 <= acc < 256 ^ n -> 0 <= n ->
            0 <= fold_left (fun a b => 256 * a + Z_of_byte b) bs acc
            < 256 ^ (n + Z.of_nat (List.length bs))).
  { clear bs. induction bs as [|b bs IH]; intros acc n Hacc Hn; simpl List.length.
    - simpl. now rewrite Z.add_0_r.
    - cbn [fold_left].
      replace (n + Z.of_nat (S (List.length bs)))
        with ((n + 1) + Z.of_nat (List.length bs)) by lia.
      apply IH; [|lia].
      rewrite Z.pow_add_r, Z.pow_1_r by lia.
      pose proof (Byte.to_N_bounded b). unfold Z_of_byte.
      assert (0 <= Z.of_N (Byte.to_N b) <= 255) by lia.
      assert (acc + 1 <= 256 ^ n) by lia. nia. }
  apply (G bs 0 0); [simpl|]; lia.
Qed.

(** The model against the test vectors of FIPS 180-4: one block, the empty
    message, and a message whose padding spills into a second block. *)
Example sha256_abc :
  hexdigest (encode "abc")
  = "ba7816bf8f01cfea414140de5dae2223b00361a396177a9cb410ff61f20015ad".
Proof. vm_compute. reflexivity. Qed.

Example sha256_empty_message :
  hexdigest []
  = "e3b0c44298fc1c149afbf4c8996fb92427ae41e4649b934ca495991b7852b855".
Proof. vm_compute. reflexivity. Qed.

Example sha256_two_blocks :
  hexdigest (encode "abcdbcdecdefdefgefghfghighijhijkijkljklmklmnlmnomnopnopq")
  = "248d6a61d20638b8e5c026930c3e6039a33ce45964ff2167f6ecedd419db06c1".
Proof. vm_compute. reflexivity. Qed.

Lemma int16_hexdigest m :
  int16 (hexdigest m) = inr (big_endian_integer (sha256 m)).
Proof. apply int16_hex_of_bytes, sha256_not_empty. Qed.

End HashlibFacts.

(** Line 86 computes the digest, read big-endian, modulo [dp_size]. *)
Lemma rank_of_eq routing_key n :
  n <> 0 ->
  rank_of routing_key n
  = inr (Hashlib.big_endian_integer (Hashlib.sha256 (encode routing_key)) mod n).
Proof.
  intros Hn. unfold rank_of. rewrite HashlibFacts.int16_hexdigest.
  unfold mod_. destruct (Z.eqb_spec n 0); [contradiction|reflexivity].
Qed.

Lemma rank_of_zero routing_key : rank_of routing_key 0 = inl ZeroDivisionError.
Proof. unfold rank_of. now rewrite HashlibFacts.int16_hexdigest. Qed.

(* ================================================================== *)
(** ** Facts about the header objects *)
(* ================================================================== *)

Module HttpxFacts.
Import Httpx.Headers.













End HttpxFacts.

Module ResponseFacts.
Import Starlette.Response.










End ResponseFacts.


Module StarletteFacts.

Lemma getitem_filter_name (q : str -> bool) (l : list (str * str)) k :
  getitem (filter (fun kv => q (fst kv)) l) k
  = if q k then getitem l k else None.
Proof.
  induction l as [|[a b] l IH]; simpl.
  - now destruct (q k).
  - destruct (q a) eqn:Ea; simpl; destruct (String.eqb a k) eqn:E; auto.
    + apply String.eqb_eq in E; subst a. now rewrite Ea.
    + apply String.eqb_eq in E; subst a. now rewrite Ea in IH |- *.
Qed.

Lemma not_in_stripped_true k :
  not_in_stripped k = true <-> lower k <> "host" /\ lower k <> "content-length".
Proof.
  unfold not_in_stripped. simpl. rewrite negb_true_iff, !orb_false_iff.
  rewrite !String.eqb_neq. tauto.
Qed.

(** Every forwarded header is an inbound header that is not stripped. *)
Lemma forwarded_headers_In h k v :
  In (k, v) (forwarded_headers h) -> not_in_stripped k = true /\ In (k, v) h.
Proof.
  unfold forwarded_headers, dict_of_items, Starlette.Headers.items. intros H.
  apply In_update in H as [[]|H]. apply filter_In in H. tauto.
Qed.

(** The forwarded headers form a mapping. *)
Lemma forwarded_headers_NoDup h : NoDup (keys (forwarded_headers h)).
Proof. apply NoDup_keys_update. constructor. Qed.

(** Under a name that is not stripped, the forwarded value is the value of
    the last inbound header of that name. *)
Lemma forwarded_headers_getitem h k :
  getitem (forwarded_headers h) k
  = if not_in_stripped k then getitem (rev h) k else None.
Proof.
  unfold forwarded_headers, dict_of_items, Starlette.Headers.items.
  rewrite getitem_update. simpl.
  rewrite <- filter_rev, (getitem_filter_name not_in_stripped).
  destruct (not_in_stripped k); [|reflexivity].
  now destruct (getitem (rev h) k).
Qed.

End StarletteFacts.

(* ================================================================== *)
(** ** How a run of [proxy] unfolds *)
(* ================================================================== *)

Section ProxyFacts.
Variable json_loads : bytes -> result value.
Variable json_dumps : value -> result str.
Variable client_request : Httpx.Call.t -> result Httpx.Response.t.
Variable args : Args.

Local Abbreviation rewrite_body0 := (rewrite_body json_loads json_dumps args).
Local Abbreviation proxy0 := (proxy json_loads json_dumps client_request args).
Local Abbreviation outbound0 := (outbound args).

Implicit Types (request : Starlette.Request.t) (path routing_key : str).

(** Without the condition of line 82, or without a key, the body is returned as
    it came and nothing is logged. *)
Lemma rewrite_body_skip request :
  Starlette.Request.method request <> "POST"
  \/ Starlette.Request.body request = []
  \/ Starlette.Headers.get (Starlette.Request.headers request)
                           (routing_header args) = None
  \/ Starlette.Headers.get (Starlette.Request.headers request)
                           (routing_header args) = Some EmptyString ->
  Run.run (rewrite_body0 request) = (inr (Starlette.Request.body request), []).
Proof.
  unfold rewrite_body, Run.run.
  intros [H|[H|[H|H]]].
  - apply String.eqb_neq in H. now rewrite H.
  - rewrite H. simpl. now rewrite andb_false_r.
  - rewrite H. now destruct (_ && _).
  - rewrite H. now destruct (_ && _).
Qed.

(** With a key, lines 85-89 run in order and the first failure ends them. *)
Lemma rewrite_body_key request routing_key :
  carries_key args request routing_key ->
  Run.run (rewrite_body0 request) =
    match json_loads (Starlette.Request.body request) with
    | inl e => (inl e, [])
    | inr data =>
        match rank_of routing_key (dp_size args) with
        | inl e => (inl e, [])
        | inr rank =>
            match value_setitem data "data_parallel_rank" (PyInt rank) with
            | inl e => (inl e, [])
            | inr data' =>
                match json_dumps data' with
                | inl e => (inl e, [])
                | inr text =>
                    (inr (encode text), [Run.LogInfo (log_line routing_key rank)])
                end
            end
        end
    end.
Proof.
  intros (Hm & Hb & Hk & Hne).
  unfold rewrite_body, Run.run. rewrite Hm, Hk, Hb, Hne, String.eqb_refl.
  cbn [andb].
  unfold Run.bind, Run.lift, Run.emit, Run.ret.
  destruct (json_loads _) as [e|data]; [reflexivity|].
  destruct (rank_of _ _) as [e|rank]; [reflexivity|].
  destruct (value_setitem _ _ _) as [e|data']; [reflexivity|].
  destruct (json_dumps _) as [e|text]; reflexivity.
Qed.

(** Every request falls under one of the two lemmas above. *)
Lemma key_or_skip request :
  (exists routing_key, carries_key args request routing_key)
  \/ Run.run (rewrite_body0 request) = (inr (Starlette.Request.body request), []).
Proof.
  destruct (string_dec (Starlette.Request.method request) "POST") as [Hm|Hm].
  2:{ right. apply rewrite_body_skip. auto. }
  destruct (Starlette.Request.body request) as [|b bs] eqn:Hb.
  { right. rewrite <- Hb. apply rewrite_body_skip. auto. }
  destruct (Starlette.Headers.get (Starlette.Request.headers request)
              (routing_header args)) as [[|c k]|] eqn:Hk.
  - right. rewrite <- Hb. apply rewrite_body_skip. auto.
  - left. exists (String c k). unfold carries_key. rewrite Hb.
    repeat split; auto.
  - right. rewrite <- Hb. apply rewrite_body_skip. auto.
Qed.

(** The handler makes its one upstream call after the body stage, and
    only if that stage returned. *)
Lemma proxy_run path request :
  Run.run (proxy0 path request) =
    match Run.run (rewrite_body0 request) with
    | (inl e, t) => (inl e, t)
    | (inr body, t) =>
        (match client_request (outbound0 path request body) with
         | inl e => inl e
         | inr resp => relay resp
         end,
         t ++ [Run.Upstream (outbound0 path request body)])
    end.
Proof.
  unfold proxy, Run.run, Run.bind at 1.
  destruct (rewrite_body0 request []) as [[e|body] t]; [reflexivity|].
  unfold Run.bind, send, Run.emit, Run.lift.
  destruct (client_request _); reflexivity.
Qed.

(** The body stage logs at most one line and calls nobody. *)
Lemma rewrite_body_calls request :
  Run.calls (snd (Run.run (rewrite_body0 request))) = [].
Proof.
  destruct (key_or_skip request) as [[k Hk]|H].
  - rewrite (rewrite_body_key _ _ Hk).
    destruct (json_loads _); [reflexivity|].
    destruct (rank_of _ _); [reflexivity|].
    destruct (value_setitem _ _ _); [reflexivity|].
    destruct (json_dumps _); reflexivity.
  - now rewrite H.
Qed.

Lemma calls_app t1 t2 : Run.calls (t1 ++ t2) = Run.calls t1 ++ Run.calls t2.
Proof.
  induction t1 as [|[l|c] t1 IH]; simpl; auto. now rewrite IH.
Qed.

(** Whatever the request, every upstream call is [outbound path request _]. *)
Lemma proxy_calls path request :
  Run.calls (snd (Run.run (proxy0 path request))) = []
  \/ exists body,
      Run.calls (snd (Run.run (proxy0 path request))) = [outbound0 path request body].
Proof.
  rewrite proxy_run. pose proof (rewrite_body_calls request) as Hc.
  destruct (Run.run (rewrite_body0 request)) as [[e|body] t]; simpl in *.
  - now left.
  - right. exists body. now rewrite calls_app, Hc.
Qed.

(** A request that is not rewritten: one call, with the body as received. *)
Lemma proxy_unrouted path request :
  Run.run (rewrite_body0 request) = (inr (Starlette.Request.body request), []) ->
  Run.run (proxy0 path request) =
    (match client_request (outbound0 path request (Starlette.Request.body request)) with
     | inl e => inl e
     | inr resp => relay resp
     end,
     [Run.Upstream (outbound0 path request (Starlette.Request.body request))]).
Proof. intros H. now rewrite proxy_run, H. Qed.

(** A request that is rewritten: the log line, then one call with the
    serialised document. *)
Lemma proxy_routed path request routing_key d rank text :
  carries_key args request routing_key ->
  json_loads (Starlette.Request.body request) = inr (PyDict d) ->
  rank_of routing_key (dp_size args) = inr rank ->
  json_dumps (PyDict (setitem d "data_parallel_rank" (PyInt rank))) = inr text ->
  Run.run (proxy0 path request) =
    (match client_request (outbound0 path request (encode text)) with
     | inl e => inl e
     | inr resp => relay resp
     end,
     [Run.LogInfo (log_line routing_key rank);
      Run.Upstream (outbound0 path request (encode text))]).
Proof.
  intros Hk Hl Hr Hd.
  rewrite proxy_run, (rewrite_body_key _ _ Hk), Hl, Hr. simpl. now rewrite Hd.
Qed.

(** A keyed request whose body does not load as a dict raises before the
    call, with an empty trace. *)
Lemma proxy_rejects path request routing_key :
  carries_key args request routing_key ->
  (forall d, json_loads (Starlette.Request.body request) <> inr (PyDict d)) ->
  exists e, Run.run (proxy0 path request) = (inl e, []).
Proof.
  intros Hk Hnd. rewrite proxy_run, (rewrite_body_key _ _ Hk).
  destruct (json_loads _) as [e|data]; [now exists e|].
  destruct (rank_of _ _) as [e|rank]; [now exists e|].
  destruct data; simpl; try (now exists TypeError).
  exfalso. now apply (Hnd d).
Qed.

(** What a successful body stage did, read back from its result. *)
Lemma rewrite_body_ok request routing_key body' t :
  carries_key args request routing_key ->
  Run.run (rewrite_body0 request) = (inr body', t) ->
  exists d rank text,
    json_loads (Starlette.Request.body request) = inr (PyDict d)
    /\ rank_of routing_key (dp_size args) = inr rank
    /\ json_dumps (PyDict (setitem d "data_parallel_rank" (PyInt rank))) = inr text
    /\ body' = encode text
    /\ t = [Run.LogInfo (log_line routing_key rank)].
Proof.
  intros Hk. rewrite (rewrite_body_key _ _ Hk).
  destruct (json_loads _) as [e|data]; [discriminate|].
  destruct (rank_of _ _) as [e|rank]; [discriminate|].
  destruct data; simpl; try discriminate.
  destruct (json_dumps _) as [e|text] eqn:Hd; [discriminate|].
  intros [= <- <-]. exists d, rank, text. auto.
Qed.
End ProxyFacts.




(* ================================================================== *)
(** ** The contract of the proxy *)
(* ================================================================== *)



(** C2.  For every routing key and every [dp_size] > 0, line 86 returns a
    rank, and 0 <= rank < [dp_size]. *)
Theorem rank_in_range routing_key n :
  0 < n -> exists rank, rank_of routing_key n = inr rank /\ 0 <= rank < n.
Proof.
  intros Hn. eexists. split.
  - apply rank_of_eq. lia.
  - apply Z.mod_pos_bound. exact Hn.
Qed.

Lemma rank_in_range_witness :
  0 < 16 /\ exists rank, rank_of "abc" 16 = inr rank /\ 0 <= rank < 16.
Proof.
  split; [reflexivity | apply (rank_in_range "abc" 16); reflexivity].
Defined.

(** C3.  The rank is a function of the routing key and [dp_size] alone: for
    a key and [dp_size] > 0 there is one rank that every run of [proxy]
    logs and stores, whatever the codec, the backend, the rest of the
    configuration, the path, and the rest of the request. *)
Theorem rank_is_function_of_key_and_size routing_key n :
  0 < n ->
  exists rank,
    rank_of routing_key n = inr rank
    /\ forall json_loads json_dumps client_request args path request d text,
        dp_size args = n ->
        carries_key args request routing_key ->
        json_loads (Starlette.Request.body request) = inr (PyDict d) ->
        json_dumps (PyDict (setitem d "data_parallel_rank" (PyInt rank))) = inr text ->
        snd (Run.run (proxy json_loads json_dumps client_request args path request))
        = [Run.LogInfo (log_line routing_key rank);
           Run.Upstream (outbound args path request (encode text))].
Proof.
  intros Hn. assert (Hr := rank_of_eq routing_key n ltac:(lia)).
  eexists. split; [exact Hr|].
  intros json_loads json_dumps client_request args path request d text <- Hk Hl Hd.
  now rewrite (proxy_routed _ _ _ _ _ _ _ _ _ _ Hk Hl Hr Hd).
Qed.

Lemma rank_is_function_of_key_and_size_witness :
  0 < 16
  /\ exists rank,
      rank_of "abc" 16 = inr rank
      /\ forall json_loads json_dumps client_request args path request d text,
          dp_size args = 16 ->
          carries_key args request "abc" ->
          json_loads (Starlette.Request.body request) = inr (PyDict d) ->
          json_dumps (PyDict (setitem d "data_parallel_rank" (PyInt rank))) = inr text ->
          snd (Run.run (proxy json_loads json_dumps client_request args path request))
          = [Run.LogInfo (log_line "abc" rank);
             Run.Upstream (outbound args path request (encode text))].
Proof.
  split; [reflexivity | apply (rank_is_function_of_key_and_size "abc" 16); reflexivity].
Defined.

(** C4.  When the routing header is absent, or its value is the empty
    string, the handler makes exactly one upstream call, whose body is the
    received body byte for byte; no rank is computed or logged. *)
Theorem no_key_passes_body_through
  json_loads json_dumps client_request args path request :
  Starlette.Headers.get (Starlette.Request.headers request) (routing_header args) = None
  \/ Starlette.Headers.get (Starlette.Request.headers request) (routing_header args)
     = Some EmptyString ->
  exists call,
    snd (Run.run (proxy json_loads json_dumps client_request args path request))
    = [Run.Upstream call]
    /\ Httpx.Call.content call = Starlette.Request.body request.
Proof.
  intros H. eexists. split.
  - rewrite proxy_unrouted; [reflexivity|].
    apply rewrite_body_skip. tauto.
  - reflexivity.
Qed.

Lemma no_key_passes_body_through_witness :
  (Starlette.Headers.get (Starlette.Request.headers Example.scenario_E)
     (routing_header Example.args) = None
   \/ Starlette.Headers.get (Starlette.Request.headers Example.scenario_E)
        (routing_header Example.args) = Some EmptyString)
  /\ exists call,
      snd (Run.run (proxy RefJson.loads RefJson.dumps Example.backend_ok Example.args
                      "generate" Example.scenario_E))
      = [Run.Upstream call]
      /\ Httpx.Call.content call = Starlette.Request.body Example.scenario_E.
Proof.
  assert (H : Starlette.Headers.get (Starlette.Request.headers Example.scenario_E)
                (routing_header Example.args) = None
              \/ Starlette.Headers.get (Starlette.Request.headers Example.scenario_E)
                   (routing_header Example.args) = Some EmptyString)
    by (left; reflexivity).
  split; [exact H|].
  exact (no_key_passes_body_through RefJson.loads RefJson.dumps Example.backend_ok
           Example.args "generate" Example.scenario_E H).
Defined.

(** C5.  A request whose method is not POST, or whose body is empty, is
    forwarded with its body unmodified, routing header or not: the handler
    makes exactly one upstream call, with the received body, and logs no
    rank. *)
Theorem only_post_with_body_is_rewritten
  json_loads json_dumps client_request args path request :
  Starlette.Request.method request <> "POST" \/ Starlette.Request.body request = [] ->
  exists call,
    snd (Run.run (proxy json_loads json_dumps client_request args path request))
    = [Run.Upstream call]
    /\ Httpx.Call.content call = Starlette.Request.body request.
Proof.
  intros H. eexists. split.
  - rewrite proxy_unrouted; [reflexivity|].
    apply rewrite_body_skip. tauto.
  - reflexivity.
Qed.

Lemma only_post_with_body_is_rewritten_witness :
  (Starlette.Request.method Example.scenario_C <> "POST"
   \/ Starlette.Request.body Example.scenario_C = [])
  /\ Starlette.Headers.get (Starlette.Request.headers Example.scenario_C)
       (routing_header Example.args) = Some "abc"
  /\ exists call,
      snd (Run.run (proxy RefJson.loads RefJson.dumps Example.backend_ok Example.args
                      "generate" Example.scenario_C))
      = [Run.Upstream call]
      /\ Httpx.Call.content call = Starlette.Request.body Example.scenario_C.
Proof.
  assert (H : Starlette.Request.method Example.scenario_C <> "POST"
              \/ Starlette.Request.body Example.scenario_C = [])
    by (right; reflexivity).
  split; [exact H|]. split; [reflexivity|].
  exact (only_post_with_body_is_rewritten RefJson.loads RefJson.dumps Example.backend_ok
           Example.args "generate" Example.scenario_C H).
Defined.

(** C6.  A POST that carries a routing key and whose non-empty body does not
    load as a JSON object (the codec raises, or returns a list or a scalar)
    makes the handler raise with no upstream call made. *)
Theorem bad_body_fails_before_upstream
  json_loads json_dumps client_request args path request routing_key :
  carries_key args request routing_key ->
  (forall d, json_loads (Starlette.Request.body request) <> inr (PyDict d)) ->
  exists e,
    fst (Run.run (proxy json_loads json_dumps client_request args path request)) = inl e
    /\ Run.calls (snd (Run.run
         (proxy json_loads json_dumps client_request args path request))) = [].
Proof.
  intros Hk Hnd.
  destruct (proxy_rejects json_loads json_dumps client_request args path request
              routing_key Hk Hnd) as (e & He).
  exists e. now rewrite He.
Qed.

Lemma bad_body_fails_before_upstream_witness :
  carries_key Example.args Example.scenario_D "abc"
  /\ RefJson.loads (Starlette.Request.body Example.scenario_D)
     = inr (PyList [PyInt 1; PyInt 2])
  /\ exists e,
      fst (Run.run (proxy RefJson.loads RefJson.dumps Example.backend_ok Example.args
                      "generate" Example.scenario_D)) = inl e
      /\ Run.calls (snd (Run.run
           (proxy RefJson.loads RefJson.dumps Example.backend_ok Example.args
              "generate" Example.scenario_D))) = [].
Proof.
  assert (Hk : carries_key Example.args Example.scenario_D "abc")
    by (repeat split; reflexivity).
  split; [exact Hk|]. split; [vm_compute; reflexivity|].
  apply (bad_body_fails_before_upstream RefJson.loads RefJson.dumps Example.backend_ok
           Example.args "generate" Example.scenario_D "abc" Hk).
  intros d. vm_compute. discriminate.
Defined.

(** C7.  When the body stage succeeds on a request that carries a routing
    key, the body it returns (and the handler sends upstream) is the
    serialisation of a dict that holds the computed rank as an int under
    [data_parallel_rank], overwriting any earlier value, holds every other
    field of the original object with its value unchanged, and has no
    further key. *)
Theorem rewrite_keeps_other_fields
  json_loads json_dumps client_request args path request routing_key body' t :
  carries_key args request routing_key ->
  Run.run (rewrite_body json_loads json_dumps args request) = (inr body', t) ->
  exists d rank d' text,
    json_loads (Starlette.Request.body request) = inr (PyDict d)
    /\ rank_of routing_key (dp_size args) = inr rank
    /\ json_dumps (PyDict d') = inr text
    /\ body' = encode text
    /\ getitem d' "data_parallel_rank" = Some (PyInt rank)
    /\ (forall k, k <> "data_parallel_rank" -> getitem d' k = getitem d k)
    /\ (forall k, In k (keys d') <-> k = "data_parallel_rank" \/ In k (keys d))
    /\ Run.calls (snd (Run.run
         (proxy json_loads json_dumps client_request args path request)))
       = [outbound args path request body'].
Proof.
  intros Hk Hrun.
  destruct (rewrite_body_ok _ _ _ _ _ _ _ Hk Hrun)
    as (d & rank & text & Hl & Hr & Hd & -> & ->).
  exists d, rank, (setitem d "data_parallel_rank" (PyInt rank)), text.
  repeat split; auto.
  - apply getitem_setitem_same.
  - intros k Hne. now apply getitem_setitem_other.
  - apply In_keys_setitem.
  - apply In_keys_setitem.
  - now rewrite (proxy_routed _ _ _ _ _ _ _ _ _ _ Hk Hl Hr Hd).
Qed.

Lemma rewrite_keeps_other_fields_witness :
  carries_key Example.args Example.scenario_A "abc"
  /\ Run.run (rewrite_body RefJson.loads RefJson.dumps Example.args Example.scenario_A)
     = (inr (encode (json_text "{'prompt': 'hi', 'data_parallel_rank': 13}")),
        [Run.LogInfo "Routing key `abc` sent to DP rank `13`"])
  /\ exists d rank d' text,
      RefJson.loads (Starlette.Request.body Example.scenario_A) = inr (PyDict d)
      /\ rank_of "abc" (dp_size Example.args) = inr rank
      /\ RefJson.dumps (PyDict d') = inr text
      /\ encode (json_text "{'prompt': 'hi', 'data_parallel_rank': 13}") = encode text
      /\ getitem d' "data_parallel_rank" = Some (PyInt rank)
      /\ (forall k, k <> "data_parallel_rank" -> getitem d' k = getitem d k)
      /\ (forall k, In k (keys d') <-> k = "data_parallel_rank" \/ In k (keys d))
      /\ Run.calls (snd (Run.run
           (proxy RefJson.loads RefJson.dumps Example.backend_ok Example.args
              "generate" Example.scenario_A)))
         = [outbound Example.args "generate" Example.scenario_A
              (encode (json_text "{'prompt': 'hi', 'data_parallel_rank': 13}"))].
Proof.
  assert (Hk : carries_key Example.args Example.scenario_A "abc")
    by (repeat split; reflexivity).
  assert (Hrun : Run.run (rewrite_body RefJson.loads RefJson.dumps Example.args
                            Example.scenario_A)
                 = (inr (encode (json_text "{'prompt': 'hi', 'data_parallel_rank': 13}")),
                    [Run.LogInfo "Routing key `abc` sent to DP rank `13`"]))
    by (vm_compute; reflexivity).
  split; [exact Hk|]. split; [exact Hrun|].
  exact (rewrite_keeps_other_fields RefJson.loads RefJson.dumps Example.backend_ok
           Example.args "generate" Example.scenario_A "abc" _ _ Hk Hrun).
Defined.

(** C8, as the claim states it, fails on a request that repeats a header
    name: of two [accept] headers only the last is sent upstream, the first
    is not passed through. *)
Lemma repeated_header_not_passed_through :
  Run.calls (snd (Run.run
    (proxy RefJson.loads RefJson.dumps Example.backend_ok Example.args
       "v1/models" Example.repeated_accept)))
  = [ {| Httpx.Call.method := "GET";
         Httpx.Call.url := "http://127.0.0.1:8000/v1/models";
         Httpx.Call.headers := [("accept", "application/json")];
         Httpx.Call.content := [];
         Httpx.Call.timeout := 600 |} ]
  /\ In ("accept", "text/html") (Starlette.Request.headers Example.repeated_accept)
  /\ lower "accept" <> "host"
  /\ lower "accept" <> "content-length"
  /\ ~ In ("accept", "text/html") [("accept", "application/json")].
Proof.
  split; [vm_compute; reflexivity|].
  split; [right; left; reflexivity|].
  split; [discriminate|]. split; [discriminate|].
  intros [H|[]]. discriminate.
Qed.

(** C8, amended.  The headers of every upstream call form a mapping with no
    key equal to Host or Content-Length whatever the case; each of them is
    an inbound header, name and value unchanged; under every other inbound
    name the mapping holds the value of the last inbound header of that
    name, so a header whose name occurs once is passed through unchanged. *)
Theorem outbound_headers_hygiene
  json_loads json_dumps client_request args path request call :
  In call (Run.calls (snd (Run.run
    (proxy json_loads json_dumps client_request args path request)))) ->
  (forall k v, In (k, v) (Httpx.Call.headers call) ->
     lower k <> "host" /\ lower k <> "content-length"
     /\ In (k, v) (Starlette.Request.headers request))
  /\ NoDup (keys (Httpx.Call.headers call))
  /\ (forall k, lower k <> "host" -> lower k <> "content-length" ->
        getitem (Httpx.Call.headers call) k
        = getitem (rev (Starlette.Request.headers request)) k)
  /\ (forall k v, In (k, v) (Starlette.Request.headers request) ->
        lower k <> "host" -> lower k <> "content-length" ->
        (forall v', In (k, v') (Starlette.Request.headers request) -> v' = v) ->
        In (k, v) (Httpx.Call.headers call)).
Proof.
  intros Hin.
  assert (Hc : Httpx.Call.headers call
               = forwarded_headers (Starlette.Request.headers request)).
  { destruct (proxy_calls json_loads json_dumps client_request args path request)
      as [H|[body H]]; rewrite H in Hin; simpl in Hin.
    - contradiction.
    - destruct Hin as [<-|[]]. reflexivity. }
  rewrite Hc.
  assert (Hlast : forall k, lower k <> "host" -> lower k <> "content-length" ->
            getitem (forwarded_headers (Starlette.Request.headers request)) k
            = getitem (rev (Starlette.Request.headers request)) k).
  { intros k H1 H2. rewrite StarletteFacts.forwarded_headers_getitem.
    now rewrite (proj2 (StarletteFacts.not_in_stripped_true k)). }
  repeat split.
  - apply StarletteFacts.forwarded_headers_In in H as [H _].
    now apply StarletteFacts.not_in_stripped_true in H.
  - apply StarletteFacts.forwarded_headers_In in H as [H _].
    now apply StarletteFacts.not_in_stripped_true in H.
  - now apply StarletteFacts.forwarded_headers_In in H.
  - apply StarletteFacts.forwarded_headers_NoDup.
  - exact Hlast.
  - intros k v Hkv H1 H2 Hone.
    apply getitem_In. rewrite (Hlast k H1 H2).
    destruct (getitem (rev (Starlette.Request.headers request)) k) as [v'|] eqn:E.
    + apply getitem_In, in_rev in E. now rewrite (Hone v' E).
    + apply getitem_None_keys in E. exfalso. apply E.
      unfold keys. change k with (fst (k, v)). apply in_map. now apply in_rev in Hkv.
Qed.

Lemma outbound_headers_hygiene_witness :
  In (outbound Example.args "v1/models" Example.repeated_accept [])
     (Run.calls (snd (Run.run
        (proxy RefJson.loads RefJson.dumps Example.backend_ok Example.args
           "v1/models" Example.repeated_accept))))
  /\ Httpx.Call.headers (outbound Example.args "v1/models" Example.repeated_accept [])
     = [("accept", "application/json")]
  /\ getitem (Httpx.Call.headers
               (outbound Example.args "v1/models" Example.repeated_accept [])) "accept"
     = getitem (rev (Starlette.Request.headers Example.repeated_accept)) "accept".
Proof.
  assert (Hin : In (outbound Example.args "v1/models" Example.repeated_accept [])
                  (Run.calls (snd (Run.run
                     (proxy RefJson.loads RefJson.dumps Example.backend_ok Example.args
                        "v1/models" Example.repeated_accept)))))
    by (vm_compute; left; reflexivity).
  split; [exact Hin|]. split; [vm_compute; reflexivity|].
  apply (outbound_headers_hygiene RefJson.loads RefJson.dumps Example.backend_ok
           Example.args "v1/models" Example.repeated_accept _ Hin);
    discriminate.
Defined.




(** A header value that the client reads as UTF-8 comes back in Latin-1:
    the two bytes of U+00E9 are relayed as the one byte E9. *)
Example relay_reencodes_header_value :
  relay Example.reply_eacute
  = inr {| Starlette.Response.status_code := 200;
           Starlette.Response.body := encode "{}";
           Starlette.Response.raw_headers :=
             [(str_latin1 "x-name", [Byte.xe9]);
              (str_latin1 "content-length", str_latin1 "2")] |}.
Proof. vm_compute. reflexivity. Qed.


(* ================================================================== *)
(** ** Further properties of the handler *)
(* ================================================================== *)

(** Helpers shared by the properties below. *)
Lemma setitem_setitem {V} (d : dict V) k (v1 v2 : V) :
  setitem (setitem d k v1) k v2 = setitem d k v2.
Proof.
  induction d as [|[k' v'] d IH]; simpl.
  - now rewrite String.eqb_refl.
  - destruct (String.eqb k' k) eqn:E; simpl; rewrite E; [reflexivity|].
    now rewrite IH.
Qed.


Lemma decode_encode_char c rest :
  RefJson.decode (encode_char c ++ rest)
  = match RefJson.decode rest with
    | inr s => inr (String c s)
    | inl e => inl e
    end.
Proof. destruct c as [[] [] [] [] [] [] [] []]; reflexivity. Qed.

Lemma decode_encode s : RefJson.decode (encode s) = inr s.
Proof.
  induction s as [|c s IH]; [reflexivity|].
  cbn [encode]. now rewrite decode_encode_char, IH.
Qed.

Lemma filter_all_true {A} (f : A -> bool) (l : list A) :
  (forall x, In x l -> f x = true) -> filter f l = l.
Proof.
  induction l as [|a l IH]; simpl; intros H; [reflexivity|].
  rewrite (H a) by now left. f_equal. apply IH. intros x Hx. apply H. now right.
Qed.

(** X1.  With [dp_size] 0, a POST that carries a routing key and whose body
    loads (as a dict or as anything else) raises ZeroDivisionError at line
    86: no upstream call is made and nothing is logged. *)
Theorem zero_partitions_fail_keyed_requests
  json_loads json_dumps client_request args path request routing_key data :
  dp_size args = 0 ->
  carries_key args request routing_key ->
  json_loads (Starlette.Request.body request) = inr data ->
  Run.run (proxy json_loads json_dumps client_request args path request)
  = (inl ZeroDivisionError, []).
Proof.
  intros H0 Hk Hl.
  now rewrite proxy_run, (rewrite_body_key _ _ _ _ _ Hk), Hl, H0, rank_of_zero.
Qed.

Lemma zero_partitions_fail_keyed_requests_witness :
  dp_size Example.args_zero = 0
  /\ carries_key Example.args_zero Example.scenario_A "abc"
  /\ Run.run (proxy RefJson.loads RefJson.dumps Example.backend_ok Example.args_zero
                "generate" Example.scenario_A)
     = (inl ZeroDivisionError, []).
Proof.
  assert (Hk : carries_key Example.args_zero Example.scenario_A "abc")
    by (repeat split; reflexivity).
  split; [reflexivity|]. split; [exact Hk|].
  apply (zero_partitions_fail_keyed_requests RefJson.loads RefJson.dumps
           Example.backend_ok Example.args_zero "generate" Example.scenario_A "abc"
           (PyDict [("prompt", PyStr "hi")]) eq_refl Hk).
  vm_compute. reflexivity.
Defined.

(** X2.  Line 86 raises for no key and no [dp_size] other than 0, and the
    exception is then ZeroDivisionError: the digest is never empty, so
    [int(_, 16)] cannot raise ValueError. *)
Theorem rank_raises_only_for_zero routing_key n :
  (rank_of routing_key n = inl ZeroDivisionError <-> n = 0)
  /\ forall e, rank_of routing_key n = inl e -> e = ZeroDivisionError /\ n = 0.
Proof.
  destruct (Z.eq_dec n 0) as [->|Hn].
  - rewrite rank_of_zero. split; [tauto|]. now intros e [= <-].
  - rewrite (rank_of_eq routing_key n Hn). split; [split; [discriminate|tauto]|].
    discriminate.
Qed.

(** X3.  With a negative [dp_size] line 86 returns, and the rank is not
    positive: [dp_size] < rank <= 0. *)
Theorem negative_partitions_rank_range routing_key n :
  n < 0 -> exists rank, rank_of routing_key n = inr rank /\ n < rank <= 0.
Proof.
  intros Hn. eexists. split.
  - apply rank_of_eq. lia.
  - apply Z.mod_neg_bound. exact Hn.
Qed.

Lemma negative_partitions_rank_range_witness :
  -16 < 0
  /\ rank_of "abc" (-16) = inr (-3)
  /\ exists rank, rank_of "abc" (-16) = inr rank /\ -16 < rank <= 0.
Proof.
  split; [reflexivity|]. split; [vm_compute; reflexivity|].
  apply (negative_partitions_rank_range "abc" (-16)). reflexivity.
Defined.

(** X4.  When the upstream call raises, the handler raises the same
    exception; the call was made once and is not repeated. *)
Theorem upstream_failure_propagates
  json_loads json_dumps client_request args path request body' t e :
  Run.run (rewrite_body json_loads json_dumps args request) = (inr body', t) ->
  client_request (outbound args path request body') = inl e ->
  fst (Run.run (proxy json_loads json_dumps client_request args path request)) = inl e
  /\ Run.calls (snd (Run.run
       (proxy json_loads json_dumps client_request args path request)))
     = [outbound args path request body'].
Proof.
  intros Hrun He. rewrite proxy_run, Hrun, He. split; [reflexivity|].
  cbn [snd]. rewrite calls_app.
  pose proof (rewrite_body_calls json_loads json_dumps args request) as Hc.
  rewrite Hrun in Hc. cbn [snd] in Hc. now rewrite Hc.
Qed.

Lemma upstream_failure_propagates_witness :
  Run.run (rewrite_body RefJson.loads RefJson.dumps Example.args Example.scenario_E)
  = (inr (Starlette.Request.body Example.scenario_E), [])
  /\ fst (Run.run (proxy RefJson.loads RefJson.dumps Example.backend_down Example.args
                     "generate" Example.scenario_E))
     = inl (HTTPError "ConnectError")
  /\ Run.calls (snd (Run.run
       (proxy RefJson.loads RefJson.dumps Example.backend_down Example.args
          "generate" Example.scenario_E)))
     = [outbound Example.args "generate" Example.scenario_E
          (Starlette.Request.body Example.scenario_E)].
Proof.
  assert (Hrun : Run.run (rewrite_body RefJson.loads RefJson.dumps Example.args
                            Example.scenario_E)
                 = (inr (Starlette.Request.body Example.scenario_E), []))
    by (vm_compute; reflexivity).
  split; [exact Hrun|].
  exact (upstream_failure_propagates RefJson.loads RefJson.dumps Example.backend_down
           Example.args "generate" Example.scenario_E _ _ _ Hrun eq_refl).
Defined.



(** X6.  The handler calls the backend at most once per request, and a call
    it makes has the method of the inbound request and the configured
    timeout. *)
Theorem at_most_one_call_same_method
  json_loads json_dumps client_request args path request :
  (List.length (Run.calls (snd (Run.run
      (proxy json_loads json_dumps client_request args path request)))) <= 1)%nat
  /\ Forall (fun call =>
               Httpx.Call.method call = Starlette.Request.method request
               /\ Httpx.Call.timeout call = timeout args)
       (Run.calls (snd (Run.run
          (proxy json_loads json_dumps client_request args path request)))).
Proof.
  destruct (proxy_calls json_loads json_dumps client_request args path request)
    as [H|[body H]]; rewrite H; simpl; split; auto; repeat constructor.
Qed.

(** X7.  The rewrite keeps the order of the fields: when the body already
    has a [data_parallel_rank] field its value is replaced where it stands,
    otherwise the field is added after all the others. *)
Theorem rank_field_position
  json_loads json_dumps args request routing_key body' t :
  carries_key args request routing_key ->
  Run.run (rewrite_body json_loads json_dumps args request) = (inr body', t) ->
  exists d d' text,
    json_loads (Starlette.Request.body request) = inr (PyDict d)
    /\ json_dumps (PyDict d') = inr text
    /\ body' = encode text
    /\ keys d' = match getitem d "data_parallel_rank" with
                 | Some _ => keys d
                 | None => keys d ++ ["data_parallel_rank"]
                 end.
Proof.
  intros Hk Hrun.
  destruct (rewrite_body_ok _ _ _ _ _ _ _ Hk Hrun)
    as (d & rank & text & Hl & Hr & Hd & -> & ->).
  exists d, (setitem d "data_parallel_rank" (PyInt rank)), text.
  repeat split; auto. apply keys_setitem.
Qed.

Lemma rank_field_position_witness :
  carries_key Example.args Example.ranked_already "abc"
  /\ Run.run (rewrite_body RefJson.loads RefJson.dumps Example.args
                Example.ranked_already)
     = (inr (encode (json_text "{'data_parallel_rank': 13, 'prompt': 'hi'}")),
        [Run.LogInfo "Routing key `abc` sent to DP rank `13`"])
  /\ exists d d' text,
      RefJson.loads (Starlette.Request.body Example.ranked_already) = inr (PyDict d)
      /\ RefJson.dumps (PyDict d') = inr text
      /\ encode (json_text "{'data_parallel_rank': 13, 'prompt': 'hi'}") = encode text
      /\ keys d' = match getitem d "data_parallel_rank" with
                   | Some _ => keys d
                   | None => keys d ++ ["data_parallel_rank"]
                   end.
Proof.
  assert (Hk : carries_key Example.args Example.ranked_already "abc")
    by (repeat split; reflexivity).
  assert (Hrun : Run.run (rewrite_body RefJson.loads RefJson.dumps Example.args
                            Example.ranked_already)
                 = (inr (encode (json_text "{'data_parallel_rank': 13, 'prompt': 'hi'}")),
                    [Run.LogInfo "Routing key `abc` sent to DP rank `13`"]))
    by (vm_compute; reflexivity).
  split; [exact Hk|]. split; [exact Hrun|].
  exact (rank_field_position RefJson.loads RefJson.dumps Example.args
           Example.ranked_already "abc" _ _ Hk Hrun).
Defined.

(** X8.  Rewriting is idempotent: a request that carries the same key and,
    as its body, the body the handler made of an earlier request is
    rewritten to that same body again (for a codec that loads the document
    it wrote). *)
Theorem rewrite_twice_same_body
  json_loads json_dumps args request again routing_key d rank text :
  carries_key args request routing_key ->
  json_loads (Starlette.Request.body request) = inr (PyDict d) ->
  rank_of routing_key (dp_size args) = inr rank ->
  json_dumps (PyDict (setitem d "data_parallel_rank" (PyInt rank))) = inr text ->
  carries_key args again routing_key ->
  Starlette.Request.body again = encode text ->
  json_loads (encode text)
  = inr (PyDict (setitem d "data_parallel_rank" (PyInt rank))) ->
  Run.run (rewrite_body json_loads json_dumps args request)
  = (inr (encode text), [Run.LogInfo (log_line routing_key rank)])
  /\ Run.run (rewrite_body json_loads json_dumps args again)
     = Run.run (rewrite_body json_loads json_dumps args request).
Proof.
  intros Hk Hl Hr Hd Hk2 Hb Hrt.
  assert (H1 : Run.run (rewrite_body json_loads json_dumps args request)
               = (inr (encode text), [Run.LogInfo (log_line routing_key rank)])).
  { rewrite (rewrite_body_key _ _ _ _ _ Hk), Hl, Hr. simpl. now rewrite Hd. }
  split; [exact H1|]. rewrite H1.
  rewrite (rewrite_body_key _ _ _ _ _ Hk2), Hb, Hrt, Hr. simpl.
  now rewrite setitem_setitem, Hd.
Qed.

Lemma rewrite_twice_same_body_witness :
  carries_key Example.args Example.scenario_A "abc"
  /\ carries_key Example.args Example.scenario_A_again "abc"
  /\ Run.run (rewrite_body RefJson.loads RefJson.dumps Example.args Example.scenario_A)
     = (inr (encode (json_text "{'prompt': 'hi', 'data_parallel_rank': 13}")),
        [Run.LogInfo (log_line "abc" 13)])
  /\ Run.run (rewrite_body RefJson.loads RefJson.dumps Example.args
                Example.scenario_A_again)
     = Run.run (rewrite_body RefJson.loads RefJson.dumps Example.args Example.scenario_A).
Proof.
  assert (Hk : carries_key Example.args Example.scenario_A "abc")
    by (repeat split; reflexivity).
  assert (Hk2 : carries_key Example.args Example.scenario_A_again "abc")
    by (repeat split; reflexivity).
  split; [exact Hk|]. split; [exact Hk2|].
  apply (rewrite_twice_same_body RefJson.loads RefJson.dumps Example.args
           Example.scenario_A Example.scenario_A_again "abc"
           [("prompt", PyStr "hi")] 13
           (json_text "{'prompt': 'hi', 'data_parallel_rank': 13}") Hk);
    try exact Hk2; vm_compute; reflexivity.
Defined.

(** X9.  Filtering the headers is idempotent: the headers the handler sends
    upstream, taken as the inbound headers of a second proxy, are sent on
    unchanged. *)
Theorem forwarded_headers_idempotent (h : Starlette.Headers.t) :
  forwarded_headers (forwarded_headers h) = forwarded_headers h.
Proof.
  unfold forwarded_headers at 1. unfold Starlette.Headers.items.
  rewrite filter_all_true.
  - unfold dict_of_items. rewrite update_fresh; [reflexivity|].
    simpl. apply StarletteFacts.forwarded_headers_NoDup.
  - intros [k v] Hin. now apply StarletteFacts.forwarded_headers_In in Hin.
Qed.

(** X10.  When the routing header is sent more than once, the rank is
    computed from its first value, while the backend receives the header
    with its last value. *)
Theorem repeated_key_first_ranks_last_forwarded
  json_loads json_dumps client_request args path request first last d rank text :
  carries_key args request first ->
  getitem (rev (Starlette.Request.headers request)) (lower (routing_header args))
  = Some last ->
  lower (routing_header args) <> "host" ->
  lower (routing_header args) <> "content-length" ->
  json_loads (Starlette.Request.body request) = inr (PyDict d) ->
  rank_of first (dp_size args) = inr rank ->
  json_dumps (PyDict (setitem d "data_parallel_rank" (PyInt rank))) = inr text ->
  exists call,
    snd (Run.run (proxy json_loads json_dumps client_request args path request))
    = [Run.LogInfo (log_line first rank); Run.Upstream call]
    /\ Httpx.Call.content call = encode text
    /\ getitem (Httpx.Call.headers call) (lower (routing_header args)) = Some last.
Proof.
  intros Hk Hlast H1 H2 Hl Hr Hd.
  exists (outbound args path request (encode text)).
  rewrite (proxy_routed _ _ _ _ _ _ _ _ _ _ Hk Hl Hr Hd).
  repeat split. cbn [outbound Httpx.Call.headers].
  rewrite StarletteFacts.forwarded_headers_getitem.
  rewrite (proj2 (StarletteFacts.not_in_stripped_true _)); [exact Hlast|].
  now rewrite lower_idem.
Qed.

Lemma repeated_key_first_ranks_last_forwarded_witness :
  carries_key Example.args Example.two_keys "abc"
  /\ getitem (rev (Starlette.Request.headers Example.two_keys))
       (lower (routing_header Example.args)) = Some "xyz"
  /\ rank_of "abc" (dp_size Example.args) = inr 13
  /\ rank_of "xyz" (dp_size Example.args) = inr 2
  /\ exists call,
      snd (Run.run (proxy RefJson.loads RefJson.dumps Example.backend_ok Example.args
                      "generate" Example.two_keys))
      = [Run.LogInfo (log_line "abc" 13); Run.Upstream call]
      /\ Httpx.Call.content call
         = encode (json_text "{'prompt': 'hi', 'data_parallel_rank': 13}")
      /\ getitem (Httpx.Call.headers call) (lower (routing_header Example.args))
         = Some "xyz".
Proof.
  assert (Hk : carries_key Example.args Example.two_keys "abc")
    by (repeat split; reflexivity).
  split; [exact Hk|]. split; [reflexivity|].
  split; [vm_compute; reflexivity|]. split; [vm_compute; reflexivity|].
  apply (repeated_key_first_ranks_last_forwarded RefJson.loads RefJson.dumps
           Example.backend_ok Example.args "generate" Example.two_keys "abc" "xyz"
           [("prompt", PyStr "hi")] 13
           (json_text "{'prompt': 'hi', 'data_parallel_rank': 13}") Hk);
    try discriminate; vm_compute; reflexivity.
Defined.

(** X11.  [routing_key.encode()] loses nothing: two routing keys are hashed
    over the same bytes only when they are the same key. *)
Theorem encode_injective (s1 s2 : str) : encode s1 = encode s2 <-> s1 = s2.
Proof.
  split; [|now intros ->].
  intros H. apply (f_equal RefJson.decode) in H.
  rewrite !decode_encode in H. now injection H.
Qed.
